(** * Lumora dashboard: a shallow embedding of the client-side logic

    The dashboard is a React application.  Its logic lives in hooks and
    event handlers that read and write component state and talk to two
    external services (the row store and the detector endpoint).  Each
    handler is embedded as a function on an explicit state record; the
    outcome of every external call is an input of the handler, so that both
    the success and the failure path of the source can be evaluated. *)

From Stdlib Require Import ZArith QArith Lia.
From stdpp Require Import base decidable option list sorting strings gmap.

(** ** Settled promises

    Every [await] of the source suspends on a promise that is later either
    fulfilled with a value or rejected with a reason. *)
Module Async.

Inductive Settled (A : Type) : Type :=
| Fulfilled (value : A)
| Rejected (reason : string).
Arguments Fulfilled {A} value.
Arguments Rejected {A} reason.

(** [p.catch(onRejected)] *)
Definition catch {A : Type} (p : Settled A) (onRejected : string → A) : Settled A :=
  match p with
  | Fulfilled v => Fulfilled v
  | Rejected r => Fulfilled (onRejected r)
  end.

(** What the runtime reports for a promise nobody handles. *)
Definition unhandled {A : Type} (p : Settled A) : list string :=
  match p with
  | Fulfilled _ => []
  | Rejected r => [r]
  end.

End Async.

(** ** hooks/useTheme.ts *)
Module Theme.

(** [localStorage] is a string-keyed store of strings. *)
Record ThemeState : Type := mkTheme {
  isDark : bool;
  localStorage : gmap string string
}.

Definition themeKey : string := "lumoraTheme".

(** An empty string is falsy in [if (saved)]. *)
Definition truthy (s : string) : bool :=
  match s with
  | EmptyString => false
  | String _ _ => true
  end.

(** [useState(true)] *)
Definition initial (store : gmap string string) : ThemeState :=
  {| isDark := true; localStorage := store |}.

(** The mount effect: [getItem], then [setIsDark(saved === 'dark')] when
    something was saved. *)
Definition mountEffect (s : ThemeState) : ThemeState :=
  match localStorage s !! themeKey with
  | Some saved =>
      if truthy saved
      then {| isDark := bool_decide (saved = "dark"); localStorage := localStorage s |}
      else s
  | None => s
  end.

Definition useTheme (store : gmap string string) : ThemeState :=
  mountEffect (initial store).

Definition toggleTheme (s : ThemeState) : ThemeState :=
  let next := negb (isDark s) in
  {| isDark := next;
     localStorage := <[themeKey := if next then "dark" else "light"]> (localStorage s) |}.

End Theme.

(** ** hooks/useDetectionContext

    JavaScript numbers that carry a confidence or a coordinate are
    rationals here (every finite double is one; NaN and the infinities are
    left out); instants are integers, the milliseconds of [Date.now()]. *)
Module DetectionFeed.
Import Async.
Local Open Scope Z_scope.

Record BoundingBox : Type := mkBox { x : Q; y : Q; width : Q; height : Q }.

Record Detection : Type := mkDetection {
  id : string;
  camera_id : string;
  confidence : Q;
  bounding_box : BoundingBox;
  frame_data : string;
  created_at : string;
  camera_name : string
}.

Record DetectionAlert : Type := mkAlert {
  alert_camera_id : string;
  alert_confidence : Q;
  timestamp : Z
}.

(** The two state cells of the hook, the browser's queue of pending
    [setTimeout] callbacks (their due instants, in scheduling order; the
    hook registers one callback only, the sweep) and the errors that
    escaped the hook. *)
Record Feed : Type := mkFeed {
  detections : list Detection;
  activeAlerts : list DetectionAlert;
  timeouts : list Z;
  uncaught : list string
}.

Definition initial : Feed :=
  {| detections := []; activeAlerts := []; timeouts := []; uncaught := [] |}.

Definition alertOf (now : Z) (detection : Detection) : DetectionAlert :=
  {| alert_camera_id := camera_id detection;
     alert_confidence := confidence detection;
     timestamp := now |}.

(** [addDetection(detection, threshold)] called at instant [now], with
    the alert stamped in the same millisecond ([FeedClock.addDetectionAt]
    has the stamp apart); [play] is how the promise of [audio.play()]
    settles. *)
Definition addDetection (now : Z) (play : Settled unit)
    (detection : Detection) (threshold : Q) (s : Feed) : Feed :=
  let buffer := take 100 (detection :: detections s) in
  if Qle_bool threshold (confidence detection) then
    {| detections := buffer;
       activeAlerts := alertOf now detection :: activeAlerts s;
       timeouts := timeouts s ++ [now + 5000];
       uncaught := uncaught s ++ unhandled (catch play (λ _, ())) |}
  else
    {| detections := buffer;
       activeAlerts := activeAlerts s;
       timeouts := timeouts s;
       uncaught := uncaught s |}.

(** The timeout callback, run at instant [now]. *)
Definition sweep (now : Z) (s : Feed) : Feed :=
  {| detections := detections s;
     activeAlerts := filter (λ a, now - timestamp a < 5000) (activeAlerts s);
     timeouts := timeouts s;
     uncaught := uncaught s |}.

Definition clearDetection (detectionId : string) (s : Feed) : Feed :=
  {| detections := filter (λ d, id d ≠ detectionId) (detections s);
     activeAlerts := activeAlerts s;
     timeouts := timeouts s;
     uncaught := uncaught s |}.

Definition hasActiveAlert (s : Feed) : bool :=
  bool_decide (0 < length (activeAlerts s))%nat.

Definition Qmaxb (a b : Q) : Q := if Qle_bool a b then b else a.

(** [Math.max(...xs)] of a non-empty argument list. *)
Definition mathMax (first : Q) (rest : list Q) : Q := foldl Qmaxb first rest.

Definition highestConfidence (s : Feed) : Q :=
  match alert_confidence <$> activeAlerts s with
  | [] => 0%Q
  | c :: cs => mathMax c cs
  end.

(** *** The event loop

    Time only enters the hook through [Date.now()] and [setTimeout].
    [advance q] brings the feed to instant [q] under the punctual
    scheduler: every pending timeout runs at its due instant, in
    scheduling order, with [Date.now()] reading that instant, and within a
    call the state updater that stamps the alert reads the clock at the
    call's own instant.  This is the best case of the browser's timing;
    it serves where the timing does not matter (the detection buffer).
    What the code does when the two clock reads of a call differ or a
    timeout runs late is the subject of [FeedClock] below. *)
Definition advance (q : Z) (s : Feed) : Feed :=
  let fired := filter (λ due, due ≤ q) (timeouts s) in
  let s' := foldl (λ acc due, sweep due acc) s fired in
  {| detections := detections s';
     activeAlerts := activeAlerts s';
     timeouts := filter (λ due, q < due) (timeouts s);
     uncaught := uncaught s' |}.

(** One call of [recordDetection] (the hook's [addDetection]) together
    with the instant at which it is made. *)
Record Call : Type := mkCall {
  instant : Z;
  playback : Settled unit;
  event : Detection;
  threshold : Q
}.

Definition recordDetection (c : Call) (s : Feed) : Feed :=
  addDetection (instant c) (playback c) (event c) (threshold c) (advance (instant c) s).

(** The feed after a history of calls, starting from the hook's initial
    state. *)
Definition run (calls : list Call) : Feed :=
  foldl (λ s c, recordDetection c s) initial calls.

End DetectionFeed.

(** ** lib/supabase: what a store call answers *)
Module Supabase.

(** A store error; [isError] records whether the value is an instance of
    the JavaScript [Error] class. *)
Record StoreError : Type := mkError { message : string; isError : bool }.

(** The [{ data, error }] pair every query resolves to. *)
Record Response (A : Type) : Type := mkResponse {
  data : option A;
  error : option StoreError
}.
Arguments mkResponse {A} data error.
Arguments data {A} r.
Arguments error {A} r.

Definition succeed {A : Type} (rows : A) : Response A :=
  {| data := Some rows; error := None |}.

Definition fail {A : Type} (e : StoreError) : Response A :=
  {| data := None; error := Some e |}.

(** [data || []] *)
Definition orEmpty {A : Type} (d : option (list A)) : list A := default [] d.

End Supabase.

(** ** components/CameraTile.tsx *)
Module CameraTile.
Import Async.

Record Camera : Type := mkCamera {
  id : string;
  name : string;
  source_type : string;
  is_active : bool;
  stream_url : option string;
  position : option Z
}.

Record LocalDetection : Type := mkLocal {
  class : string;
  confidence : Q;
  bbox : list Q
}.

(** One instance of the tile component: its props, whether React still
    holds it, its three state cells, and what its two effects own (the
    media stream's tracks and the polling interval). *)
Record Tile : Type := mkTile {
  camera : Camera;
  mounted : bool;
  localDetections : list LocalDetection;
  error : option string;
  isStreaming : bool;
  tracksLive : bool;
  polling : bool
}.

(** A state setter of a component reaches the state cell only while the
    component is mounted: React releases the cells of an unmounted
    component and drops later updates. *)
Definition setLocalDetections (ds : list LocalDetection) (t : Tile) : Tile :=
  if mounted t
  then {| camera := camera t; mounted := mounted t; localDetections := ds;
          error := error t; isStreaming := isStreaming t;
          tracksLive := tracksLive t; polling := polling t |}
  else t.

Definition setError (e : string) (t : Tile) : Tile :=
  if mounted t
  then {| camera := camera t; mounted := mounted t;
          localDetections := localDetections t;
          error := Some e; isStreaming := isStreaming t;
          tracksLive := tracksLive t; polling := polling t |}
  else t.

(** First render of a tile; the webcam effect has at most started
    [getUserMedia], which has not settled yet. *)
Definition mount (c : Camera) : Tile :=
  {| camera := c; mounted := true; localDetections := []; error := None;
     isStreaming := false; tracksLive := false; polling := false |}.

Definition wantsWebcam (c : Camera) : bool :=
  bool_decide (source_type c = "webcam") && is_active c.

(** [getUserMedia] settles.  On success the stream is attached when the
    video element still exists, [isStreaming] becomes true and the
    inference effect, whose only dependency is [isStreaming], installs the
    interval.  A stream that arrives after the unmount is attached to
    nothing, and no cleanup is left to stop its tracks. *)
Definition onStreamSettled (r : Settled unit) (t : Tile) : Tile * list string :=
  match r with
  | Fulfilled _ =>
      if mounted t
      then ({| camera := camera t; mounted := true;
               localDetections := localDetections t; error := error t;
               isStreaming := true; tracksLive := true; polling := true |}, [])
      else ({| camera := camera t; mounted := mounted t;
               localDetections := localDetections t; error := error t;
               isStreaming := isStreaming t; tracksLive := true;
               polling := polling t |}, [])
  | Rejected reason =>
      (setError "Failed to access webcam" t, ["Error accessing webcam: " +:+ reason])
  end.

Definition webcamDeps (c : Camera) : string * bool * option string :=
  (source_type c, is_active c, stream_url c).

(** The parent re-renders the tile with new props.  When a dependency of
    the webcam effect changed, its cleanup stops the tracks; the inference
    effect depends on [isStreaming] alone and is left as it is. *)
Definition receiveProps (c : Camera) (t : Tile) : Tile :=
  if mounted t then
    {| camera := c; mounted := true;
       localDetections := localDetections t; error := error t;
       isStreaming := isStreaming t;
       tracksLive := if bool_decide (webcamDeps c = webcamDeps (camera t))
                     then tracksLive t else false;
       polling := polling t |}
  else t.

(** React unmounts the tile: both cleanups run. *)
Definition unmount (t : Tile) : Tile :=
  {| camera := camera t; mounted := false;
     localDetections := localDetections t; error := error t;
     isStreaming := isStreaming t; tracksLive := false; polling := false |}.

(** The three ways a tile's feed ends. *)
Inductive Teardown : Type :=
| Unmounted
| Deactivated
| StreamReplaced (url : string).

Definition withActive (b : bool) (c : Camera) : Camera :=
  {| id := id c; name := name c; source_type := source_type c;
     is_active := b; stream_url := stream_url c; position := position c |}.

Definition withStream (url : string) (c : Camera) : Camera :=
  {| id := id c; name := name c; source_type := source_type c;
     is_active := is_active c; stream_url := Some url; position := position c |}.

Definition teardown (ev : Teardown) (t : Tile) : Tile :=
  match ev with
  | Unmounted => unmount t
  | Deactivated => receiveProps (withActive false (camera t)) t
  | StreamReplaced url => receiveProps (withStream url (camera t)) t
  end.

(** One firing of the interval callback: is a frame posted to the
    detector?  [hasContext], [readyState] and [hasBlob] are what the canvas
    and the video element answer. *)
Definition tick (hasContext : bool) (readyState : Z) (hasBlob : bool) (t : Tile) : bool :=
  polling t && mounted t && hasContext && bool_decide (readyState = 4%Z) && hasBlob.

(** How the [fetch] of one frame ends. *)
Inductive Body : Type :=
| Json (detections : list LocalDetection)
| Malformed (reason : string).

Inductive FetchResult : Type :=
| NetworkError (reason : string)
| HttpResponse (ok : bool) (body : Body).

(** The continuation of the [toBlob] callback after [await fetch(...)];
    the second component is what goes to [console.error]. *)
Definition onFetchSettled (r : FetchResult) (t : Tile) : Tile * list string :=
  match r with
  | NetworkError reason => (t, ["Inference error: " +:+ reason])
  | HttpResponse true (Json ds) => (setLocalDetections ds t, [])
  | HttpResponse true (Malformed reason) => (t, ["Inference error: " +:+ reason])
  | HttpResponse false _ => (t, [])
  end.

End CameraTile.

(** ** components/LumoraDashboard.tsx: cameras and settings *)
Module LumoraDashboard.
Import Supabase.
Local Open Scope Z_scope.

Abbreviation Camera := CameraTile.Camera.

Record SystemSettings : Type := mkSettings {
  settings_id : string;
  is_armed : bool;
  alert_threshold : Q;
  dark_mode : bool
}.

Inductive Tab : Type := dashboardTab | controlTab.

Inductive LogLine : Type :=
| Warn (text : string)
| Error (text : string).

(** The state cells of the dashboard component that its handlers touch,
    and the console. *)
Record Dash : Type := mkDash {
  cameras : list Camera;
  settings : option SystemSettings;
  activeTab : Tab;
  loading : bool;
  console : list LogLine
}.

Definition initial : Dash :=
  {| cameras := []; settings := None; activeTab := dashboardTab;
     loading := true; console := [] |}.

Definition setCameras (cs : list Camera) (s : Dash) : Dash :=
  {| cameras := cs; settings := settings s; activeTab := activeTab s;
     loading := loading s; console := console s |}.

Definition setSettings (f : option SystemSettings → option SystemSettings) (s : Dash) : Dash :=
  {| cameras := cameras s; settings := f (settings s); activeTab := activeTab s;
     loading := loading s; console := console s |}.

Definition setLoading (b : bool) (s : Dash) : Dash :=
  {| cameras := cameras s; settings := settings s; activeTab := activeTab s;
     loading := b; console := console s |}.

Definition log (l : LogLine) (s : Dash) : Dash :=
  {| cameras := cameras s; settings := settings s; activeTab := activeTab s;
     loading := loading s; console := console s ++ [l] |}.

(** *** loadCameras *)

(** The two camera queries: [.order('position')] present or not. *)
Inductive CameraQuery : Type :=
| SelectOrdered (user_id : option string)
| SelectUnordered (user_id : option string).

(** [supabase] answers the queries of one load. *)
Definition loadCameras (supabase : CameraQuery → Response (list Camera))
    (user : option string) (s : Dash) : Dash :=
  let ordered := supabase (SelectOrdered user) in
  let s' :=
    match error ordered with
    | None => setCameras (orEmpty (data ordered)) s
    | Some e =>
        let s1 := log (Warn ("Failed to load sorted cameras, falling back to unsorted: "
                             +:+ message e)) s in
        let fallback := supabase (SelectUnordered user) in
        match error fallback with
        | None => setCameras (orEmpty (data fallback)) s1
        | Some finalError => log (Error ("Error loading cameras: " +:+ message finalError)) s1
        end
    end in
  setLoading false s'.

(** The queries [loadCameras] sends, in order. *)
Definition loadCamerasQueries (supabase : CameraQuery → Response (list Camera))
    (user : option string) : list CameraQuery :=
  match error (supabase (SelectOrdered user)) with
  | None => [SelectOrdered user]
  | Some _ => [SelectOrdered user; SelectUnordered user]
  end.

(** A row store holding the [cameras] table, whose [position] column
    exists only once the migration has run. *)
Record CameraRow : Type := mkRow { owner : string; row : Camera }.

Record Store : Type := mkStore {
  cameraRows : list CameraRow;
  hasPositionColumn : bool
}.

Definition rowsOf (st : Store) (user : option string) : list Camera :=
  row <$> filter (λ r, Some (owner r) = user) (cameraRows st).

Definition positionOf (c : Camera) : Z := default 0 (CameraTile.position c).

Definition byPosition (a b : Camera) : Prop := positionOf a ≤ positionOf b.

#[export] Instance byPosition_dec : RelDecision byPosition.
Proof. intros a b. unfold byPosition. apply _. Defined.

Definition answer (st : Store) (q : CameraQuery) : Response (list Camera) :=
  match q with
  | SelectUnordered user => succeed (rowsOf st user)
  | SelectOrdered user =>
      if hasPositionColumn st
      then succeed (merge_sort byPosition (rowsOf st user))
      else fail {| message := "column cameras.position does not exist"; isError := false |}
  end.

(** *** handleReorderCameras *)

(** Where [Array.prototype.splice] starts for a given [start] argument. *)
Definition spliceStart (len start : Z) : Z :=
  if start <? 0 then Z.max (len + start) 0 else Z.min start len.

(** [arrayMove] of dnd-kit: copy the array, splice one element out at
    [from] and splice it back in at [to]:
    [newArray.splice(to < 0 ? newArray.length + to : to, 0,
                     newArray.splice(from, 1)[0])].
    The arguments are evaluated left to right, so a negative [to] is
    resolved against the length before the removal.  When the inner
    splice removes nothing JavaScript would insert [undefined], which is
    no element of the array's type: the result is [None] there. *)
Definition arrayMove {A : Type} (array : list A) (from to : Z) : option (list A) :=
  let len := Z.of_nat (length array) in
  let target := if to <? 0 then len + to else to in
  let i := Z.to_nat (spliceStart len from) in
  match array !! i with
  | None => None
  | Some item =>
      let rest := delete i array in
      let j := Z.to_nat (spliceStart (Z.of_nat (length rest)) target) in
      Some (take j rest ++ item :: drop j rest)
  end.

Record PositionUpdate : Type := mkUpdate {
  update_id : string;
  update_position : Z;
  updated_at : Z
}.

Definition positionUpdates (now : Z) (cs : list Camera) : list PositionUpdate :=
  imap (λ index camera,
          {| update_id := CameraTile.id camera;
             update_position := Z.of_nat index;
             updated_at := now |}) cs.

(** The handler up to its [await]: the state after the optimistic update
    and the upsert sent, if any. *)
Definition handleReorderCameras (now : Z) (oldIndex newIndex : Z) (s : Dash)
    : option (Dash * option (list PositionUpdate)) :=
  if bool_decide (oldIndex = newIndex) then Some (s, None)
  else
    newCameras ← arrayMove (cameras s) oldIndex newIndex;
    Some (setCameras newCameras s, Some (positionUpdates now newCameras)).

(** The handler after the upsert has answered. *)
Definition handleReorderSettled (r : Response unit) (s : Dash) : Dash :=
  match error r with
  | None => s
  | Some e => log (Error ("Error updating camera order: " +:+ message e)) s
  end.

(** *** handleArmedChange, handleThresholdChange *)

Inductive SettingsUpdate : Type :=
| UpdateArmed (armed : bool) (user_id : option string)
| UpdateThreshold (threshold : Q) (user_id : option string).

Definition withArmed (armed : bool) (prev : option SystemSettings) : option SystemSettings :=
  match prev with
  | Some p => Some {| settings_id := settings_id p; is_armed := armed;
                      alert_threshold := alert_threshold p; dark_mode := dark_mode p |}
  | None => None
  end.

Definition withThreshold (threshold : Q) (prev : option SystemSettings) : option SystemSettings :=
  match prev with
  | Some p => Some {| settings_id := settings_id p; is_armed := is_armed p;
                      alert_threshold := threshold; dark_mode := dark_mode p |}
  | None => None
  end.

(** Each handler sends one update to [system_settings]; [r] is its answer.
    The result is the state afterwards and the requests sent. *)
Definition handleArmedChange (user : option string) (armed : bool)
    (r : Response unit) (s : Dash) : Dash * list SettingsUpdate :=
  (match error r with
   | None => setSettings (withArmed armed) s
   | Some e => log (Error ("Error updating armed status: " +:+ message e)) s
   end, [UpdateArmed armed user]).

Definition handleThresholdChange (user : option string) (threshold : Q)
    (r : Response unit) (s : Dash) : Dash * list SettingsUpdate :=
  (match error r with
   | None => setSettings (withThreshold threshold) s
   | Some e => log (Error ("Error updating threshold: " +:+ message e)) s
   end, [UpdateThreshold threshold user]).

End LumoraDashboard.

(** ** components/ControlPanel.tsx *)
Module ControlPanel.
Import Supabase.

Inductive Status : Type := disarmed | armed | alert.

Record SystemState : Type := mkState {
  id : string;
  status : Status;
  last_updated : Z;
  updated_by : option string
}.

Record PanelState : Type := mkPanel { loading : bool; error : string }.

(** The store calls the panel can make. *)
Inductive Request : Type :=
| SelectState
| UpdateState (rowId : option string) (newStatus : Status) (now : Z)
              (updated_by : option string)
| InsertLog (event_type : string) (status_before : option Status)
            (status_after : Status) (user_id : option string).

(** What the store and [auth.getUser()] answer during one call. *)
Record Answers : Type := mkAnswers {
  fetchAnswer : Response SystemState;
  currentUser : option string;
  updateAnswer : Response unit;
  logAnswer : Response unit
}.

(** What one call leaves behind: the panel's state, the store calls it
    made, in order, and whether [onUpdate] was called. *)
Record Result : Type := mkResult {
  panel : PanelState;
  sent : list Request;
  onUpdateCalled : bool
}.

(** [err instanceof Error ? err.message : 'Failed to update system state'] *)
Definition shown (e : StoreError) : string :=
  if isError e then message e else "Failed to update system state".

(** The [catch] and [finally] blocks. *)
Definition caught (e : StoreError) (requests : list Request) : Result :=
  {| panel := {| loading := false; error := shown e |};
     sent := requests; onUpdateCalled := false |}.

Definition updateSystemState (now : Z) (backend : Answers)
    (newStatus : Status) (eventType : string) (p : PanelState) : Result :=
  let currentState := data (fetchAnswer backend) in
  let update := UpdateState (id <$> currentState) newStatus now (currentUser backend) in
  let insert := InsertLog eventType (status <$> currentState) newStatus (currentUser backend) in
  match Supabase.error (fetchAnswer backend) with
  | Some fetchError => caught fetchError [SelectState]
  | None =>
      match Supabase.error (updateAnswer backend) with
      | Some updateError => caught updateError [SelectState; update]
      | None =>
          match Supabase.error (logAnswer backend) with
          | Some logError => caught logError [SelectState; update; insert]
          | None =>
              {| panel := {| loading := false; error := "" |};
                 sent := [SelectState; update; insert];
                 onUpdateCalled := true |}
          end
      end
  end.

Definition handleArm (now : Z) (backend : Answers) (p : PanelState) : Result :=
  updateSystemState now backend armed "armed" p.

Definition handleDisarm (now : Z) (backend : Answers) (p : PanelState) : Result :=
  updateSystemState now backend disarmed "disarmed" p.

Definition handleBreach (now : Z) (backend : Answers) (p : PanelState) : Result :=
  updateSystemState now backend alert "breach" p.

Definition isInsertLog (r : Request) : bool :=
  match r with
  | InsertLog _ _ _ _ => true
  | _ => false
  end.

End ControlPanel.

(** ** The dashboard as a whole: the feed hook, the dashboard's own state
    and one tile per camera shown in the grid *)
Module Dashboard.

Record App : Type := mkApp {
  feed : DetectionFeed.Feed;
  dash : LumoraDashboard.Dash;
  tiles : gmap string CameraTile.Tile
}.

(** The detector answers a frame posted by the tile of camera
    [cameraId]; the continuation runs inside that tile. *)
Definition tileFetchSettled (cameraId : string) (r : CameraTile.FetchResult)
    (app : App) : App :=
  {| feed := feed app;
     dash := dash app;
     tiles := alter (λ t, (CameraTile.onFetchSettled r t).1) cameraId (tiles app) |}.

(** What the dashboard shows of the feed: the confidence on the alert
    banner, if the banner is up, and the entries of the detection log
    panel, if the panel is on screen. *)
Record View : Type := mkView {
  banner : option Q;
  detectionLog : option (list DetectionFeed.Detection)
}.

(** [None] is the loading screen. *)
Definition render (app : App) : option View :=
  if LumoraDashboard.loading (dash app) then None
  else Some
    {| banner := if DetectionFeed.hasActiveAlert (feed app)
                 then Some (DetectionFeed.highestConfidence (feed app))
                 else None;
       detectionLog := match LumoraDashboard.activeTab (dash app) with
                       | LumoraDashboard.dashboardTab =>
                           Some (DetectionFeed.detections (feed app))
                       | LumoraDashboard.controlTab => None
                       end |}.

End Dashboard.

(** ** Sample data *)
Module Examples.
Import Async Supabase.
Local Open Scope Z_scope.

Definition frontDoor : CameraTile.Camera :=
  {| CameraTile.id := "cam-1"; CameraTile.name := "Front door";
     CameraTile.source_type := "webcam"; CameraTile.is_active := true;
     CameraTile.stream_url := None; CameraTile.position := Some 0 |}.

Definition backYard : CameraTile.Camera :=
  {| CameraTile.id := "cam-2"; CameraTile.name := "Back yard";
     CameraTile.source_type := "webcam"; CameraTile.is_active := true;
     CameraTile.stream_url := None; CameraTile.position := Some 1 |}.

Definition garage : CameraTile.Camera :=
  {| CameraTile.id := "cam-3"; CameraTile.name := "Garage";
     CameraTile.source_type := "rtsp"; CameraTile.is_active := true;
     CameraTile.stream_url := Some "rtsp://garage"; CameraTile.position := Some 2 |}.

Definition person : CameraTile.LocalDetection :=
  {| CameraTile.class := "person"; CameraTile.confidence := 9 # 10;
     CameraTile.bbox := [10; 20; 110; 220]%Q |}.

(** A tile whose webcam stream has been acquired: it is polling. *)
Definition streamingTile : CameraTile.Tile :=
  (CameraTile.onStreamSettled (Fulfilled ()) (CameraTile.mount frontDoor)).1.

Definition found : CameraTile.FetchResult :=
  CameraTile.HttpResponse true (CameraTile.Json [person]).

Definition loadedDash : LumoraDashboard.Dash :=
  {| LumoraDashboard.cameras := [frontDoor; backYard; garage];
     LumoraDashboard.settings :=
       Some {| LumoraDashboard.settings_id := "settings-1";
               LumoraDashboard.is_armed := false;
               LumoraDashboard.alert_threshold := 70;
               LumoraDashboard.dark_mode := true |};
     LumoraDashboard.activeTab := LumoraDashboard.dashboardTab;
     LumoraDashboard.loading := false;
     LumoraDashboard.console := [] |}.

Definition app0 : Dashboard.App :=
  {| Dashboard.feed := DetectionFeed.initial;
     Dashboard.dash := loadedDash;
     Dashboard.tiles := {[ "cam-1" := streamingTile ]} |}.

Definition sighting (name : string) (conf : Q) : DetectionFeed.Detection :=
  {| DetectionFeed.id := name; DetectionFeed.camera_id := "cam-1";
     DetectionFeed.confidence := conf;
     DetectionFeed.bounding_box :=
       {| DetectionFeed.x := 10; DetectionFeed.y := 20;
          DetectionFeed.width := 100; DetectionFeed.height := 200 |};
     DetectionFeed.frame_data := "data:image/png;base64,AAAA";
     DetectionFeed.created_at := "2025-11-23T10:00:00.000Z";
     DetectionFeed.camera_name := "Front door" |}.

Definition callAt (t : Z) (name : string) (conf : Q) : DetectionFeed.Call :=
  {| DetectionFeed.instant := t; DetectionFeed.playback := Rejected "NotAllowedError";
     DetectionFeed.event := sighting name conf; DetectionFeed.threshold := 70 |}.

(** A history of 100 calls, one per millisecond, the n-th with
    confidence n. *)
Definition hundredCalls : list DetectionFeed.Call :=
  (λ n : nat, callAt (Z.of_nat n) "seen" (inject_Z (Z.of_nat n))) <$> seq 0 100.

Definition refused : StoreError :=
  {| message := "permission denied for table system_state"; isError := true |}.

Definition currentRow : ControlPanel.SystemState :=
  {| ControlPanel.id := "state-1"; ControlPanel.status := ControlPanel.disarmed;
     ControlPanel.last_updated := 0; ControlPanel.updated_by := None |}.

(** The read succeeds, the update is refused. *)
Definition updateRefused : ControlPanel.Answers :=
  {| ControlPanel.fetchAnswer := succeed currentRow;
     ControlPanel.currentUser := Some "user-1";
     ControlPanel.updateAnswer := fail refused;
     ControlPanel.logAnswer := succeed () |}.

Definition allAccepted : ControlPanel.Answers :=
  {| ControlPanel.fetchAnswer := succeed currentRow;
     ControlPanel.currentUser := Some "user-1";
     ControlPanel.updateAnswer := succeed ();
     ControlPanel.logAnswer := succeed () |}.

Definition idlePanel : ControlPanel.PanelState :=
  {| ControlPanel.loading := false; ControlPanel.error := "" |}.

(** A store on which the position migration has not run. *)
Definition unmigrated : LumoraDashboard.Store :=
  {| LumoraDashboard.cameraRows :=
       [ {| LumoraDashboard.owner := "user-1"; LumoraDashboard.row := frontDoor |};
         {| LumoraDashboard.owner := "user-2"; LumoraDashboard.row := garage |};
         {| LumoraDashboard.owner := "user-1"; LumoraDashboard.row := backYard |} ];
     LumoraDashboard.hasPositionColumn := false |}.

End Examples.

(** ** Interleavings of the feed's two operations *)
Module FeedOps.
Import DetectionFeed.

Inductive FeedOp : Type :=
| Record_ (c : Call)
| Clear (detectionId : string).

Definition applyOp (s : Feed) (op : FeedOp) : Feed :=
  match op with
  | Record_ c => recordDetection c s
  | Clear detectionId => clearDetection detectionId s
  end.

Definition runOps (ops : list FeedOp) : Feed := foldl applyOp initial ops.

(** The [recordDetection] calls of a history, in order. *)
Definition recorded (ops : list FeedOp) : list Call :=
  omap (λ op, match op with Record_ c => Some c | Clear _ => None end) ops.

(** Does the call's detection reach its threshold? *)
Definition reached (c : Call) : bool := Qle_bool (threshold c) (confidence (event c)).

End FeedOps.

(** ** The feed on the browser's clock

    [addDetection] reads the clock twice: [setTimeout] is registered
    during the call, and the alert is stamped by [Date.now()] inside the
    state updater, which React runs when it next renders; and a timeout
    runs when the event loop gets to it, at its due instant or later.
    Here both instants are inputs. *)
Module FeedClock.
Import Async DetectionFeed.
Local Open Scope Z_scope.

(** [addDetection] called at instant [called], its alert stamped at
    instant [stamped]. *)
Definition addDetectionAt (called stamped : Z) (play : Settled unit)
    (detection : Detection) (threshold : Q) (s : Feed) : Feed :=
  let buffer := take 100 (detection :: detections s) in
  if Qle_bool threshold (confidence detection) then
    {| detections := buffer;
       activeAlerts := alertOf stamped detection :: activeAlerts s;
       timeouts := timeouts s ++ [called + 5000];
       uncaught := uncaught s ++ unhandled (catch play (λ _, ())) |}
  else
    {| detections := buffer;
       activeAlerts := activeAlerts s;
       timeouts := timeouts s;
       uncaught := uncaught s |}.

(** What happens to the feed: a call, or the event loop running one
    pending timeout at instant [now]. *)
Inductive Event : Type :=
| Called (called stamped : Z) (play : Settled unit) (detection : Detection)
         (threshold : Q)
| Fired (now : Z).


(** The pending timeouts without the first one that is due at [now];
    [None] when none is due. *)
Fixpoint takeDue (now : Z) (pending : list Z) : option (list Z) :=
  match pending with
  | [] => None
  | due :: rest =>
      if decide (due ≤ now) then Some rest
      else cons due <$> takeDue now rest
  end.

(** A timeout runs at [now]: the sweep reads [Date.now() = now].  With no
    timeout due nothing runs. *)
Definition fire (now : Z) (s : Feed) : Feed :=
  match takeDue now (timeouts s) with
  | Some rest =>
      {| detections := detections s;
         activeAlerts := activeAlerts (sweep now s);
         timeouts := rest;
         uncaught := uncaught s |}
  | None => s
  end.

Definition step (s : Feed) (ev : Event) : Feed :=
  match ev with
  | Called called stamped play detection threshold =>
      addDetectionAt called stamped play detection threshold s
  | Fired now => fire now s
  end.





End FeedClock.

(** ** components/CameraGrid.tsx: the end of a drag *)
Module CameraGrid.
Local Open Scope Z_scope.

(** [Array.prototype.findIndex]: the first index whose element passes,
    -1 when there is none. *)
Fixpoint findIndex {A : Type} (p : A → bool) (l : list A) : Z :=
  match l with
  | [] => -1
  | x :: rest =>
      if p x then 0
      else let r := findIndex p rest in if r <? 0 then -1 else r + 1
  end.

Definition hasId (i : string) (c : CameraTile.Camera) : bool :=
  bool_decide (CameraTile.id c = i).

(** [handleDragEnd]: the [onReorder(oldIndex, newIndex)] call it makes,
    if any.  [over] is absent when the tile was dropped on nothing. *)
Definition handleDragEnd (cameras : list CameraTile.Camera)
    (active : string) (over : option string) : option (Z * Z) :=
  match over with
  | Some overId =>
      if bool_decide (active ≠ overId)
      then Some (findIndex (hasId active) cameras, findIndex (hasId overId) cameras)
      else None
  | None => None
  end.

(** The drag end as the dashboard sees it: [onReorder] is
    [handleReorderCameras]. *)
Definition dragEnd (now : Z) (active : string) (over : option string)
    (s : LumoraDashboard.Dash)
    : option (LumoraDashboard.Dash * option (list LumoraDashboard.PositionUpdate)) :=
  match handleDragEnd (LumoraDashboard.cameras s) active over with
  | Some (oldIndex, newIndex) => LumoraDashboard.handleReorderCameras now oldIndex newIndex s
  | None => Some (s, None)
  end.

End CameraGrid.

(** ** components/LumoraDashboard.tsx: the remaining handlers *)
Module DashboardHandlers.
Import Supabase LumoraDashboard.

(** [handleDeleteCamera]; [r] answers the delete. *)
Definition handleDeleteCamera (cameraId : string) (r : Response unit) (s : Dash) : Dash :=
  match error r with
  | None => setCameras (filter (λ c, CameraTile.id c ≠ cameraId) (cameras s)) s
  | Some e => log (Error ("Error deleting camera: " +:+ message e)) s
  end.

(** The answer of the [maybeSingle] select: its error carries a code. *)
Record CodedError : Type := mkCoded { cause : StoreError; code : string }.

Record SelectAnswer : Type := mkSelect {
  selected : option SystemSettings;
  selectError : option CodedError
}.

Inductive SettingsRequest : Type :=
| SelectSettings (user_id : option string)
| InsertSettings (user_id : string) (is_armed : bool) (alert_threshold : Q)
                 (dark_mode : bool).

Definition isInsertSettings (r : SettingsRequest) : bool :=
  match r with
  | InsertSettings _ _ _ _ => true
  | SelectSettings _ => false
  end.

(** [error && error.code !== 'PGRST116'] *)
Definition fatal (e : option CodedError) : option CodedError :=
  match e with
  | Some err => if bool_decide (code err ≠ "PGRST116") then Some err else None
  | None => None
  end.

(** [user?.id] when it is truthy. *)
Definition userId (user : option string) : option string :=
  match user with
  | Some i => if Theme.truthy i then Some i else None
  | None => None
  end.

(** [loadSettings]; [isDark] is the theme of the render that created the
    handler, [answer] what the select returns and [inserted] what the
    insert would return.  The result is the state afterwards and the
    requests sent. *)
Definition loadSettings (isDark : bool) (user : option string)
    (answer : SelectAnswer) (inserted : Response SystemSettings) (s : Dash)
    : Dash * list SettingsRequest :=
  match fatal (selectError answer) with
  | Some e =>
      (log (Error ("Error loading settings: " +:+ message (cause e))) s,
       [SelectSettings user])
  | None =>
      match selected answer, userId user with
      | None, Some uid =>
          (match error inserted with
           | Some insertError =>
               log (Error ("Error loading settings: " +:+ message insertError)) s
           | None => setSettings (λ _, data inserted) s
           end,
           [SelectSettings user; InsertSettings uid false 70 isDark])
      | row, _ => (setSettings (λ _, row) s, [SelectSettings user])
      end
  end.

(** The only call of [loadSettings] is made by the dashboard's mount
    effect.  The handler it calls is the one of the first render, whose
    [isDark] is the theme hook's initial state: the hook's own mount
    effect, which reads the store, has not been rendered yet. *)
Definition loadSettingsOnMount (store : gmap string string) (user : option string)
    (answer : SelectAnswer) (inserted : Response SystemSettings) (s : Dash)
    : Dash * list SettingsRequest :=
  loadSettings (Theme.isDark (Theme.initial store)) user answer inserted s.




End DashboardHandlers.

(** ** The image upload page ([ObjectDetection]) *)
Module ObjectDetection.

Record DetectionResult : Type := mkResult {
  detections : list CameraTile.LocalDetection;
  image : string
}.

Record Page : Type := mkPage {
  preview : option string;
  result : option DetectionResult;
  loading : bool;
  error : option string
}.

(** The body of a response: JSON, which may be [null], or text that does
    not parse. *)
Inductive Body : Type :=
| Json (data : option DetectionResult)
| Malformed (reason : string).

Inductive FetchResult : Type :=
| NetworkError (reason : string)
| HttpResponse (ok : bool) (body : Body).

(** [detectObjects] up to its [await]: the three resets. *)
Definition detectObjectsStart (p : Page) : Page :=
  {| preview := preview p; result := None; loading := true; error := None |}.

(** The message the [catch] block shows.  A rejected [fetch] and a
    rejected [json()] are instances of [Error], as is the error thrown
    for a non-success status. *)
Definition failure (r : FetchResult) : option string :=
  match r with
  | NetworkError reason => Some reason
  | HttpResponse false _ => Some "Failed to process image"
  | HttpResponse true (Malformed reason) => Some reason
  | HttpResponse true (Json _) => None
  end.

(** [detectObjects] after its request has settled, on the page as it is
    by then: [setResult(data)] or [setError(...)], then
    [setLoading(false)]. *)
Definition detectObjectsSettled (r : FetchResult) (p : Page) : Page :=
  match r with
  | HttpResponse true (Json data) =>
      {| preview := preview p; result := data; loading := false; error := error p |}
  | _ =>
      {| preview := preview p; result := result p; loading := false;
         error := failure r |}
  end.

(** An upload with nothing happening on the page in between. *)
Definition detectObjects (r : FetchResult) (p : Page) : Page :=
  detectObjectsSettled r (detectObjectsStart p).

End ObjectDetection.

(** ** The life of a camera tile

    The tile together with what is outstanding on its behalf: calls of
    [getUserMedia] that have not settled and frames posted to the
    detector that have not been answered. *)
Module TileLife.
Import Async CameraTile.

Record Live : Type := mkLive {
  tile : Tile;
  pendingStreams : nat;
  inFlight : nat
}.

Inductive Event : Type :=
| Props (c : Camera)
| StreamSettled (r : Settled unit)
| Tick (hasContext : bool) (readyState : Z) (hasBlob : bool)
| FetchSettled (r : FetchResult)
| Unmount.

(** The webcam effect calls [getUserMedia] when it runs for a camera that
    is an active webcam. *)
Definition start (c : Camera) : Live :=
  {| tile := mount c;
     pendingStreams := if wantsWebcam c then 1 else 0;
     inFlight := 0 |}.

(** Does re-rendering with props [c] re-run the webcam effect into
    [getUserMedia]? *)
Definition restartsWebcam (c : Camera) (t : Tile) : bool :=
  mounted t && negb (bool_decide (webcamDeps c = webcamDeps (camera t))) && wantsWebcam c.

(** An event that settles something only happens when that something is
    outstanding. *)
Definition step (l : Live) (ev : Event) : Live :=
  match ev with
  | Props c =>
      {| tile := receiveProps c (tile l);
         pendingStreams := pendingStreams l + (if restartsWebcam c (tile l) then 1 else 0);
         inFlight := inFlight l |}
  | StreamSettled r =>
      match pendingStreams l with
      | O => l
      | S n => {| tile := (onStreamSettled r (tile l)).1;
                  pendingStreams := n; inFlight := inFlight l |}
      end
  | Tick hasContext readyState hasBlob =>
      if tick hasContext readyState hasBlob (tile l)
      then {| tile := tile l; pendingStreams := pendingStreams l;
              inFlight := S (inFlight l) |}
      else l
  | FetchSettled r =>
      match inFlight l with
      | O => l
      | S n => {| tile := (onFetchSettled r (tile l)).1;
                  pendingStreams := pendingStreams l; inFlight := n |}
      end
  | Unmount =>
      {| tile := unmount (tile l); pendingStreams := pendingStreams l;
         inFlight := inFlight l |}
  end.

Definition run (c : Camera) (evs : list Event) : Live := foldl step (start c) evs.

(** No props of the history ask for a webcam. *)
Definition neverWebcam (c : Camera) (evs : list Event) : Prop :=
  wantsWebcam c = false ∧
  Forall (λ ev, match ev with Props c' => wantsWebcam c' = false | _ => True end) evs.

Definition isUnmount (ev : Event) : bool :=
  match ev with
  | Unmount => true
  | _ => false
  end.

End TileLife.

(** ** The capture of a frame, step by step

    A tick of the interval draws the frame and calls [canvas.toBlob]; the
    frame is posted later, from the blob callback, which looks at the
    blob and at nothing else.  Here the two steps are apart. *)
Module TileCapture.
Import Async CameraTile.

Record Live : Type := mkLive {
  tile : Tile;
  pendingStreams : nat;
  pendingBlobs : nat;
  inFlight : nat
}.

Inductive Event : Type :=
| Props (c : Camera)
| StreamSettled (r : Settled unit)
| Tick (hasContext : bool) (readyState : Z)
| BlobReady (hasBlob : bool)
| FetchSettled (r : FetchResult)
| Unmount.

Definition start (c : Camera) : Live :=
  {| tile := mount c;
     pendingStreams := if wantsWebcam c then 1 else 0;
     pendingBlobs := 0;
     inFlight := 0 |}.

Definition step (l : Live) (ev : Event) : Live :=
  match ev with
  | Props c =>
      {| tile := receiveProps c (tile l);
         pendingStreams :=
           pendingStreams l + (if TileLife.restartsWebcam c (tile l) then 1 else 0);
         pendingBlobs := pendingBlobs l;
         inFlight := inFlight l |}
  | StreamSettled r =>
      match pendingStreams l with
      | O => l
      | S n => {| tile := (onStreamSettled r (tile l)).1; pendingStreams := n;
                  pendingBlobs := pendingBlobs l; inFlight := inFlight l |}
      end
  | Tick hasContext readyState =>
      if polling (tile l) && mounted (tile l) && hasContext
         && bool_decide (readyState = 4%Z)
      then {| tile := tile l; pendingStreams := pendingStreams l;
              pendingBlobs := S (pendingBlobs l); inFlight := inFlight l |}
      else l
  | BlobReady hasBlob =>
      match pendingBlobs l with
      | O => l
      | S n => {| tile := tile l; pendingStreams := pendingStreams l;
                  pendingBlobs := n;
                  inFlight := if hasBlob then S (inFlight l) else inFlight l |}
      end
  | FetchSettled r =>
      match inFlight l with
      | O => l
      | S n => {| tile := (onFetchSettled r (tile l)).1;
                  pendingStreams := pendingStreams l;
                  pendingBlobs := pendingBlobs l; inFlight := n |}
      end
  | Unmount =>
      {| tile := unmount (tile l); pendingStreams := pendingStreams l;
         pendingBlobs := pendingBlobs l; inFlight := inFlight l |}
  end.

Definition run (c : Camera) (evs : list Event) : Live := foldl step (start c) evs.

End TileCapture.

(** ** components/AddCameraModal.tsx: submitting the form *)
Module AddCameraModal.

Inductive SourceType : Type := webcam | rtsp | ip_camera | video_upload.

Inductive Step : Type := source | config.

Record FormData : Type := mkForm {
  name : string;
  stream_url : string;
  username : string;
  password : string
}.

Record Modal : Type := mkModal {
  step : Step;
  selectedSource : option SourceType;
  videoDevices : list string;
  formData : FormData
}.

Definition emptyForm : FormData :=
  {| name := ""; stream_url := ""; username := ""; password := "" |}.

Definition initial : Modal :=
  {| step := source; selectedSource := None; videoDevices := []; formData := emptyForm |}.

(** The argument of [onAdd]. *)
Record NewCamera : Type := mkNew {
  new_source_type : SourceType;
  new_form : FormData
}.

(** What a submit leaves behind: the modal's state, the [onAdd] call it
    made, if any, and whether it called [onClose]. *)
Record Submitted : Type := mkSubmitted {
  modal : Modal;
  added : option NewCamera;
  closed : bool
}.

Definition handleSelectSource (src : SourceType) (m : Modal) : Modal :=
  {| step := config; selectedSource := Some src;
     videoDevices := videoDevices m; formData := formData m |}.

Definition setName (n : string) (m : Modal) : Modal :=
  {| step := step m; selectedSource := selectedSource m;
     videoDevices := videoDevices m;
     formData := {| name := n; stream_url := stream_url (formData m);
                    username := username (formData m);
                    password := password (formData m) |} |}.

Section WithTrim.

(** [String.prototype.trim]. *)
Variable trim : string → string.

Definition handleSubmit (m : Modal) : Submitted :=
  match selectedSource m with
  | None => {| modal := m; added := None; closed := false |}
  | Some src =>
      if Theme.truthy (trim (name (formData m)))
      then {| modal := {| step := source; selectedSource := None;
                          videoDevices := videoDevices m; formData := emptyForm |};
              added := Some {| new_source_type := src; new_form := formData m |};
              closed := true |}
      else {| modal := m; added := None; closed := false |}
  end.

End WithTrim.

End AddCameraModal.

(** ** Further sample data *)
Module Scenarios.
Import Async Supabase.
Local Open Scope Z_scope.




(** A store that cannot be reached: every query fails. *)
Definition unreachable (q : LumoraDashboard.CameraQuery)
    : Response (list CameraTile.Camera) :=
  fail {| message := "TypeError: Failed to fetch"; isError := true |}.

End Scenarios.

(** * Properties *)

(** ** The definitions at work *)
Section Runs.
Local Open Scope Z_scope.

Example arrayMove_front_to_back :
  LumoraDashboard.arrayMove ["A"; "B"; "C"] 0 2 = Some ["B"; "C"; "A"].
Proof. reflexivity. Qed.

Example arrayMove_negative_from_takes_last :
  LumoraDashboard.arrayMove ["A"; "B"; "C"] (-1) 0 = Some ["C"; "A"; "B"].
Proof. reflexivity. Qed.

Example arrayMove_negative_to_counts_from_old_end :
  LumoraDashboard.arrayMove ["A"; "B"; "C"] 0 (-1) = Some ["B"; "C"; "A"].
Proof. reflexivity. Qed.

Example arrayMove_nothing_to_move :
  LumoraDashboard.arrayMove ["A"; "B"; "C"] 3 0 = None.
Proof. reflexivity. Qed.

Example highestConfidence_of_two_alerts :
  DetectionFeed.highestConfidence
    (DetectionFeed.run [Examples.callAt 0 "a" 80; Examples.callAt 3000 "b" 90]) = 90%Q.
Proof. reflexivity. Qed.

Example clearDetection_unknown_id :
  DetectionFeed.clearDetection "nobody" (DetectionFeed.run [Examples.callAt 0 "a" 80])
  = DetectionFeed.run [Examples.callAt 0 "a" 80].
Proof. reflexivity. Qed.

Example stored_light_theme_is_read :
  Theme.isDark (Theme.useTheme {[ Theme.themeKey := "light" ]}) = false.
Proof. reflexivity. Qed.

Example ordered_query_sorts_by_position :
  Supabase.data
    (LumoraDashboard.answer
       {| LumoraDashboard.cameraRows :=
            [ {| LumoraDashboard.owner := "user-1"; LumoraDashboard.row := Examples.backYard |};
              {| LumoraDashboard.owner := "user-1"; LumoraDashboard.row := Examples.frontDoor |} ];
          LumoraDashboard.hasPositionColumn := true |}
       (LumoraDashboard.SelectOrdered (Some "user-1")))
  = Some [Examples.frontDoor; Examples.backYard].
Proof. reflexivity. Qed.

End Runs.

(** ** The theme store *)
Section ThemeFacts.
Import Theme.

Lemma toggleTheme_isDark (s : ThemeState) : isDark (toggleTheme s) = negb (isDark s).
Proof. reflexivity. Qed.

Lemma toggleTheme_saved (s : ThemeState) :
  localStorage (toggleTheme s) !! themeKey
  = Some (if isDark (toggleTheme s) then "dark" else "light").
Proof. unfold toggleTheme; simpl. by rewrite lookup_insert_eq. Qed.

(** C10.  With nothing persisted under the theme key the hook starts
    dark; after a toggle the persisted key holds "dark" exactly when the
    in-memory theme is dark (and "light" otherwise); two toggles bring
    the theme back to where it was. *)
Theorem theme_default_sync_involution :
  (∀ store : gmap string string,
      store !! themeKey = None → isDark (useTheme store) = true) ∧
  (∀ s : ThemeState,
      (localStorage (toggleTheme s) !! themeKey = Some "dark"
         ↔ isDark (toggleTheme s) = true) ∧
      (localStorage (toggleTheme s) !! themeKey = Some "light"
         ↔ isDark (toggleTheme s) = false)) ∧
  (∀ s : ThemeState, isDark (toggleTheme (toggleTheme s)) = isDark s).
Proof.
  split; [|split].
  - intros store Hnone. unfold useTheme, mountEffect; simpl. by rewrite Hnone.
  - intros s. rewrite toggleTheme_saved.
    destruct (isDark (toggleTheme s)); split; split; congruence.
  - intros s. rewrite !toggleTheme_isDark. apply negb_involutive.
Qed.

Lemma theme_default_sync_involution_witness :
  isDark (useTheme (<["other" := "x"]> ∅)) = true.
Proof.
  apply (proj1 theme_default_sync_involution).
  reflexivity.
Defined.

End ThemeFacts.

(** ** The detection feed *)
Section FeedFacts.
Import Async DetectionFeed.
Local Open Scope Z_scope.

Lemma foldl_sweep_detections (fired : list Z) (s : Feed) :
  detections (foldl (λ acc due, sweep due acc) s fired) = detections s.
Proof.
  revert s. induction fired as [|due fired IH]; intros s; simpl; [done|].
  by rewrite IH.
Qed.

Lemma advance_detections (q : Z) (s : Feed) :
  detections (advance q s) = detections s.
Proof. unfold advance; simpl. apply foldl_sweep_detections. Qed.

Lemma recordDetection_detections (c : Call) (s : Feed) :
  detections (recordDetection c s) = take 100 (event c :: detections s).
Proof.
  rewrite <- (advance_detections (instant c) s).
  unfold recordDetection, addDetection.
  by destruct (Qle_bool _ _).
Qed.

Lemma run_snoc (calls : list Call) (c : Call) :
  run (calls ++ [c]) = recordDetection c (run calls).
Proof. unfold run. by rewrite foldl_snoc. Qed.

Lemma run_detections (calls : list Call) :
  detections (run calls) = take 100 (reverse (event <$> calls)).
Proof.
  induction calls as [|c calls IH] using rev_ind; [done|].
  rewrite run_snoc, recordDetection_detections, IH.
  rewrite fmap_app. change (event <$> [c]) with [event c].
  rewrite reverse_snoc. cbn [take]. f_equal.
  by rewrite take_take.
Qed.

(** C5.  After any history of [recordDetection] calls the buffer holds at
    most 100 entries; it is the history's events in reverse call order
    (most recent first) cut to the first 100, so what is missing are the
    oldest; one more call puts its event at the head, in front of the 99
    most recent entries of the buffer before it. *)
Theorem detection_buffer_capped_newest_first (calls : list Call) :
  (length (detections (run calls)) ≤ 100)%nat ∧
  detections (run calls) = take 100 (reverse (event <$> calls)) ∧
  (∀ c : Call,
      detections (run (calls ++ [c])) = event c :: take 99 (detections (run calls))) ∧
  (∀ (c : Call) (kept : list Detection) (oldest : Detection),
      detections (run calls) = kept ++ [oldest] →
      length (detections (run calls)) = 100%nat →
      detections (run (calls ++ [c])) = event c :: kept).
Proof.
  assert (Hstep : ∀ c : Call,
    detections (run (calls ++ [c])) = event c :: take 99 (detections (run calls))).
  { intros c. by rewrite run_snoc, recordDetection_detections. }
  split; [|split; [|split]].
  - rewrite run_detections, length_take. lia.
  - apply run_detections.
  - exact Hstep.
  - intros c kept oldest Hsplit Hlen. rewrite Hstep, Hsplit. f_equal.
    rewrite Hsplit, length_app in Hlen. simpl in Hlen.
    rewrite take_app_le by lia. apply take_ge. lia.
Qed.


Lemma detection_buffer_capped_newest_first_witness :
  detections (run (Examples.hundredCalls ++ [Examples.callAt 100 "new" 50]))
  = Examples.sighting "new" 50 :: take 99 (detections (run Examples.hundredCalls)).
Proof.
  apply (proj2 (proj2 (proj2 (detection_buffer_capped_newest_first Examples.hundredCalls)))
           (Examples.callAt 100 "new" 50)
           (take 99 (detections (run Examples.hundredCalls)))
           (Examples.sighting "seen" 0)).
  - vm_compute. reflexivity.
  - vm_compute. reflexivity.
Defined.


End FeedFacts.

(** ** Expiry of alerts on the browser's clock *)
Section ClockFacts.
Import Async DetectionFeed FeedClock.
Local Open Scope Z_scope.

Lemma addDetectionAt_same_instant now play d th (s : Feed) :
  addDetectionAt now now play d th s = addDetection now play d th s.
Proof. reflexivity. Qed.











End ClockFacts.

(** ** The capture loop of a camera tile *)
Section TileFacts.
Import Async CameraTile.

Lemma receiveProps_mounted (c : Camera) (t : Tile) :
  mounted t = true → mounted (receiveProps c t) = true.
Proof. intros H. unfold receiveProps. by rewrite H. Qed.

Lemma receiveProps_polling (c : Camera) (t : Tile) :
  polling (receiveProps c t) = polling t.
Proof. unfold receiveProps. by destruct (mounted t). Qed.

Lemma success_sets_overlay (ds : list LocalDetection) (t : Tile) :
  mounted t = true →
  (onFetchSettled (HttpResponse true (Json ds)) t).1
  = {| camera := camera t; mounted := true; localDetections := ds;
       error := error t; isStreaming := isStreaming t;
       tracksLive := tracksLive t; polling := polling t |}.
Proof. intros H. simpl. unfold setLocalDetections. by rewrite H. Qed.

(** C9.  A successful detector response makes the overlay of a mounted
    tile exactly the detections of that response, whatever the overlay
    was, and touches no other cell of the tile; a request that fails (a
    network error, a non-success status, or a body that does not parse)
    leaves the tile, its overlay included, as it was. *)
Theorem overlay_replaced_on_success_kept_on_failure (t : Tile) :
  (∀ ds : list LocalDetection,
      mounted t = true →
      localDetections (onFetchSettled (HttpResponse true (Json ds)) t).1 = ds ∧
      error (onFetchSettled (HttpResponse true (Json ds)) t).1 = error t ∧
      isStreaming (onFetchSettled (HttpResponse true (Json ds)) t).1 = isStreaming t) ∧
  (∀ reason : string, (onFetchSettled (NetworkError reason) t).1 = t) ∧
  (∀ body : Body, (onFetchSettled (HttpResponse false body) t).1 = t) ∧
  (∀ reason : string, (onFetchSettled (HttpResponse true (Malformed reason)) t).1 = t).
Proof.
  split; [|by repeat split].
  intros ds Hm. by rewrite success_sets_overlay.
Qed.

Lemma overlay_replaced_on_success_kept_on_failure_witness :
  localDetections
    (onFetchSettled (HttpResponse true (Json []))
       (onFetchSettled Examples.found Examples.streamingTile).1).1 = [].
Proof.
  apply (proj1 (overlay_replaced_on_success_kept_on_failure
                  (onFetchSettled Examples.found Examples.streamingTile).1) []).
  reflexivity.
Defined.

(** C2, as the code has it.  A response that settles after the tile has
    been unmounted changes nothing of the tile.  Deactivating the camera
    or replacing its stream does not unmount the tile and does not stop
    its polling: a successful response that settles afterwards replaces
    the overlay like any other. *)
Theorem response_after_unmount_is_noop :
  (∀ (t : Tile) (r : FetchResult),
      (onFetchSettled r (teardown Unmounted t)).1 = teardown Unmounted t) ∧
  (∀ (t : Tile) (ev : Teardown) (ds : list LocalDetection),
      mounted t = true → ev ≠ Unmounted →
      polling (teardown ev t) = polling t ∧
      localDetections
        (onFetchSettled (HttpResponse true (Json ds)) (teardown ev t)).1 = ds).
Proof.
  split.
  - intros t r. destruct r as [reason|[] [ds|reason]]; simpl; try done.
  - intros t ev ds Hm Hev.
    destruct ev as [| |url]; [done| |]; cbn [teardown];
      (split; [apply receiveProps_polling|]);
      rewrite success_sets_overlay; auto using receiveProps_mounted.
Qed.

Lemma response_after_unmount_is_noop_witness :
  polling (teardown Deactivated Examples.streamingTile) = polling Examples.streamingTile ∧
  localDetections
    (onFetchSettled (HttpResponse true (Json [Examples.person]))
       (teardown Deactivated Examples.streamingTile)).1 = [Examples.person].
Proof.
  apply (proj2 response_after_unmount_is_noop Examples.streamingTile Deactivated
           [Examples.person]).
  - reflexivity.
  - discriminate.
Defined.

(** C2 as stated fails: the tile is polling and has posted a frame, the
    camera is deactivated, then the detector answers; the answer changes
    the overlay of the torn-down tile. *)
Lemma response_after_deactivation_mutates_overlay :
  tick true 4 true Examples.streamingTile = true ∧
  localDetections (teardown Deactivated Examples.streamingTile) = [] ∧
  (onFetchSettled Examples.found (teardown Deactivated Examples.streamingTile)).1
  ≠ teardown Deactivated Examples.streamingTile.
Proof. split; [reflexivity|split; [reflexivity|discriminate]]. Qed.

End TileFacts.

(** ** The dashboard as a whole *)
Section DashboardFacts.
Import Dashboard.

Lemma addDetection_buffer_nonempty now play d th (s : DetectionFeed.Feed) :
  DetectionFeed.detections (DetectionFeed.addDetection now play d th s) ≠ [].
Proof.
  unfold DetectionFeed.addDetection.
  by destruct (Qle_bool th (DetectionFeed.confidence d)).
Qed.

(** C1, as the code has it.  A detector response handled by a tile stays
    inside that tile: on success it becomes the overlay of the (mounted)
    tile, and the detection feed, hence everything the dashboard renders
    from it, is what it was.  The alert banner and the detection log panel
    are driven by the feed's output only: the banner is up exactly when
    the feed has an active alert and shows its highest confidence, and
    the log panel lists the feed's detection buffer. *)
Theorem inference_result_stays_in_tile :
  (∀ (cameraId : string) (r : CameraTile.FetchResult) (app : App),
      feed (tileFetchSettled cameraId r app) = feed app ∧
      render (tileFetchSettled cameraId r app) = render app) ∧
  (∀ (cameraId : string) (ds : list CameraTile.LocalDetection) (app : App)
     (t : CameraTile.Tile),
      tiles app !! cameraId = Some t → CameraTile.mounted t = true →
      CameraTile.localDetections
        <$> (tiles (tileFetchSettled cameraId
                      (CameraTile.HttpResponse true (CameraTile.Json ds)) app)
             !! cameraId)
      = Some ds) ∧
  (∀ (app : App) (v : View),
      render app = Some v →
      banner v = (if DetectionFeed.hasActiveAlert (feed app)
                  then Some (DetectionFeed.highestConfidence (feed app))
                  else None) ∧
      (LumoraDashboard.activeTab (dash app) = LumoraDashboard.dashboardTab →
       detectionLog v = Some (DetectionFeed.detections (feed app)))).
Proof.
  split; [|split].
  - intros cameraId r app. by split.
  - intros cameraId ds app t Hlookup Hm. simpl.
    rewrite lookup_alter_eq, Hlookup. simpl.
    unfold CameraTile.setLocalDetections. by rewrite Hm.
  - intros app v. unfold render.
    destruct (LumoraDashboard.loading (dash app)); [done|].
    intros [= <-]; simpl. split; [done|]. by intros ->.
Qed.

Lemma inference_result_stays_in_tile_witness :
  CameraTile.localDetections
    <$> (tiles (tileFetchSettled "cam-1" Examples.found Examples.app0) !! "cam-1")
  = Some [Examples.person].
Proof.
  apply (proj1 (proj2 inference_result_stays_in_tile) "cam-1" [Examples.person]
           Examples.app0 Examples.streamingTile).
  - reflexivity.
  - reflexivity.
Defined.

(** C1 as stated fails: the tile of camera "cam-1" receives a successful
    response carrying one detection, and the feed afterwards is not the
    result of any [addDetection] call on the feed before; its buffer is
    still empty and no alert is active. *)
Lemma inference_result_never_reaches_feed :
  (¬ ∃ now play d th,
       feed (tileFetchSettled "cam-1" Examples.found Examples.app0)
       = DetectionFeed.addDetection now play d th (feed Examples.app0)) ∧
  DetectionFeed.detections (feed (tileFetchSettled "cam-1" Examples.found Examples.app0)) = [] ∧
  DetectionFeed.hasActiveAlert (feed (tileFetchSettled "cam-1" Examples.found Examples.app0))
  = false.
Proof.
  split; [|split; reflexivity].
  intros (now & play & d & th & H).
  apply (f_equal DetectionFeed.detections) in H.
  symmetry in H. by apply addDetection_buffer_nonempty in H.
Qed.

End DashboardFacts.

(** ** The camera collection *)
Section CameraFacts.
Import Supabase LumoraDashboard.
Local Open Scope Z_scope.

Lemma handleReorderSettled_cameras (r : Response unit) (s : Dash) :
  cameras (handleReorderSettled r s) = cameras s.
Proof. unfold handleReorderSettled. by destruct (error r). Qed.

(** C7.  On a camera list [A; B; C], [reorder(0, 2)] has made the local
    list [B; C; A] by the time the handler suspends on the upsert it
    sends (the new positions of all three cameras), and the local list is
    still [B; C; A] after the upsert has answered, with an error or
    without. *)
Theorem reorder_is_optimistic_and_never_rolled_back
    (now : Z) (A B C : Camera) (s : Dash) :
  cameras s = [A; B; C] →
  ∃ s' : Dash,
    handleReorderCameras now 0 2 s = Some (s', Some (positionUpdates now [B; C; A])) ∧
    cameras s' = [B; C; A] ∧
    ∀ r : Response unit, cameras (handleReorderSettled r s') = [B; C; A].
Proof.
  intros Hcams. exists (setCameras [B; C; A] s).
  split; [|split].
  - unfold handleReorderCameras, arrayMove. by rewrite Hcams.
  - done.
  - intros r. by rewrite handleReorderSettled_cameras.
Qed.

Lemma reorder_is_optimistic_and_never_rolled_back_witness :
  ∃ s' : Dash,
    handleReorderCameras 1700000000000 0 2 Examples.loadedDash
    = Some (s', Some (positionUpdates 1700000000000
                        [Examples.backYard; Examples.garage; Examples.frontDoor])) ∧
    cameras s' = [Examples.backYard; Examples.garage; Examples.frontDoor] ∧
    ∀ r : Response unit,
      cameras (handleReorderSettled r s')
      = [Examples.backYard; Examples.garage; Examples.frontDoor].
Proof.
  apply (reorder_is_optimistic_and_never_rolled_back 1700000000000
           Examples.frontDoor Examples.backYard Examples.garage Examples.loadedDash).
  reflexivity.
Defined.

(** C8, as the code has it.  When the ordered query fails,
    [loadCameras] sends the unordered query after it.  When that one
    answers, the camera list becomes exactly the rows it returned, with
    loading finished; on a store that lacks the position column these are
    all the rows of the current user, in table order.  When the unordered
    query fails as well, the camera list is left as it was, the error
    goes to the console and loading is finished all the same. *)
Theorem load_falls_back_to_unordered_fetch :
  (∀ (supabase : CameraQuery → Response (list Camera)) (user : option string)
     (s : Dash) (e : StoreError) (rows : list Camera),
      error (supabase (SelectOrdered user)) = Some e →
      supabase (SelectUnordered user) = succeed rows →
      loadCamerasQueries supabase user = [SelectOrdered user; SelectUnordered user] ∧
      cameras (loadCameras supabase user s) = rows ∧
      loading (loadCameras supabase user s) = false) ∧
  (∀ (st : Store) (user : option string) (s : Dash),
      hasPositionColumn st = false →
      cameras (loadCameras (answer st) user s)
      = row <$> filter (λ r, Some (owner r) = user) (cameraRows st)) ∧
  (∀ (supabase : CameraQuery → Response (list Camera)) (user : option string)
     (s : Dash) (e finalError : StoreError),
      error (supabase (SelectOrdered user)) = Some e →
      error (supabase (SelectUnordered user)) = Some finalError →
      loadCamerasQueries supabase user = [SelectOrdered user; SelectUnordered user] ∧
      cameras (loadCameras supabase user s) = cameras s ∧
      loading (loadCameras supabase user s) = false ∧
      last (console (loadCameras supabase user s))
      = Some (Error ("Error loading cameras: " +:+ message finalError))).
Proof.
  assert (Hgen : ∀ (supabase : CameraQuery → Response (list Camera))
     (user : option string) (s : Dash) (e : StoreError) (rows : list Camera),
      error (supabase (SelectOrdered user)) = Some e →
      supabase (SelectUnordered user) = succeed rows →
      loadCamerasQueries supabase user = [SelectOrdered user; SelectUnordered user] ∧
      cameras (loadCameras supabase user s) = rows ∧
      loading (loadCameras supabase user s) = false).
  { intros supabase user s e rows Hordered Hfallback.
    unfold loadCamerasQueries, loadCameras. rewrite Hordered, Hfallback. by simpl. }
  split; [exact Hgen|]. split.
  - intros st user s Hcol.
    apply (Hgen (answer st) user s
             {| message := "column cameras.position does not exist"; isError := false |}).
    + simpl. by rewrite Hcol.
    + reflexivity.
  - intros supabase user s e finalError Hordered Hfallback.
    unfold loadCamerasQueries, loadCameras. rewrite Hordered, Hfallback. simpl.
    repeat split. by rewrite last_snoc.
Qed.

Lemma load_falls_back_to_unordered_fetch_witness :
  cameras (loadCameras (answer Examples.unmigrated) (Some "user-1") initial)
  = [Examples.frontDoor; Examples.backYard].
Proof.
  apply (proj1 (proj2 load_falls_back_to_unordered_fetch) Examples.unmigrated
           (Some "user-1") initial).
  reflexivity.
Defined.

(** C8 as stated fails: user "user-1" has two camera rows, but the store
    cannot be reached, so the ordered query fails and so does the
    fallback; the first load then shows an empty camera list and logs an
    error instead of returning the rows. *)
Lemma load_shows_no_rows_when_fallback_fails :
  rowsOf Examples.unmigrated (Some "user-1") = [Examples.frontDoor; Examples.backYard] ∧
  error (Scenarios.unreachable (SelectOrdered (Some "user-1"))) ≠ None ∧
  cameras (loadCameras Scenarios.unreachable (Some "user-1") initial) = [] ∧
  last (console (loadCameras Scenarios.unreachable (Some "user-1") initial))
  = Some (Error "Error loading cameras: TypeError: Failed to fetch").
Proof. split; [reflexivity|]. split; [discriminate|]. split; reflexivity. Qed.

End CameraFacts.

(** ** Arming, disarming and the threshold *)
Section ArmFacts.
Import Supabase.
Local Open Scope Z_scope.

(** C4, as the code has it.  [updateSystemState] reads the singleton
    row, then updates it, then inserts the audit record with the status
    read and the new status; the three calls are made one after the other
    and the first one that fails ends the sequence, so a failed update
    means no audit insert is attempted; a failure puts its message in the
    panel's error state and [onUpdate] is not called.  [handleArmedChange]
    and [handleThresholdChange] send one update of the settings row and
    no audit record; the local settings take the new value only after the
    store accepted it, and on failure they are what they were and the
    error goes to the console. *)
Theorem settings_writes_stop_at_first_failure :
  (∀ (now : Z) (backend : ControlPanel.Answers) (newStatus : ControlPanel.Status)
     (eventType : string) (p : ControlPanel.PanelState),
      let read := data (ControlPanel.fetchAnswer backend) in
      let update := ControlPanel.UpdateState (ControlPanel.id <$> read) newStatus now
                      (ControlPanel.currentUser backend) in
      let insert := ControlPanel.InsertLog eventType (ControlPanel.status <$> read)
                      newStatus (ControlPanel.currentUser backend) in
      let result := ControlPanel.updateSystemState now backend newStatus eventType p in
      ControlPanel.loading (ControlPanel.panel result) = false ∧
      (∀ e, error (ControlPanel.fetchAnswer backend) = Some e →
            result = ControlPanel.caught e [ControlPanel.SelectState]) ∧
      (∀ e, error (ControlPanel.fetchAnswer backend) = None →
            error (ControlPanel.updateAnswer backend) = Some e →
            result = ControlPanel.caught e [ControlPanel.SelectState; update]) ∧
      (∀ e, error (ControlPanel.fetchAnswer backend) = None →
            error (ControlPanel.updateAnswer backend) = None →
            error (ControlPanel.logAnswer backend) = Some e →
            result = ControlPanel.caught e [ControlPanel.SelectState; update; insert]) ∧
      (error (ControlPanel.fetchAnswer backend) = None →
       error (ControlPanel.updateAnswer backend) = None →
       error (ControlPanel.logAnswer backend) = None →
       ControlPanel.sent result = [ControlPanel.SelectState; update; insert] ∧
       ControlPanel.error (ControlPanel.panel result) = "" ∧
       ControlPanel.onUpdateCalled result = true)) ∧
  (∀ (user : option string) (armed : bool) (r : Response unit) (s : LumoraDashboard.Dash),
      (LumoraDashboard.handleArmedChange user armed r s).2
      = [LumoraDashboard.UpdateArmed armed user] ∧
      (error r = None →
       (LumoraDashboard.handleArmedChange user armed r s).1
       = LumoraDashboard.setSettings (LumoraDashboard.withArmed armed) s) ∧
      (∀ e, error r = Some e →
       LumoraDashboard.settings (LumoraDashboard.handleArmedChange user armed r s).1
       = LumoraDashboard.settings s ∧
       LumoraDashboard.console (LumoraDashboard.handleArmedChange user armed r s).1
       = LumoraDashboard.console s
         ++ [LumoraDashboard.Error ("Error updating armed status: " +:+ message e)])) ∧
  (∀ (user : option string) (threshold : Q) (r : Response unit) (s : LumoraDashboard.Dash),
      (LumoraDashboard.handleThresholdChange user threshold r s).2
      = [LumoraDashboard.UpdateThreshold threshold user] ∧
      (error r = None →
       (LumoraDashboard.handleThresholdChange user threshold r s).1
       = LumoraDashboard.setSettings (LumoraDashboard.withThreshold threshold) s) ∧
      (∀ e, error r = Some e →
       LumoraDashboard.settings (LumoraDashboard.handleThresholdChange user threshold r s).1
       = LumoraDashboard.settings s ∧
       LumoraDashboard.console (LumoraDashboard.handleThresholdChange user threshold r s).1
       = LumoraDashboard.console s
         ++ [LumoraDashboard.Error ("Error updating threshold: " +:+ message e)])).
Proof.
  split; [|split].
  - intros now backend newStatus eventType p read update insert result.
    subst result. unfold ControlPanel.updateSystemState. fold read. fold update. fold insert.
    destruct (error (ControlPanel.fetchAnswer backend)) as [e1|];
      [|destruct (error (ControlPanel.updateAnswer backend)) as [e2|];
        [|destruct (error (ControlPanel.logAnswer backend)) as [e3|]]];
      simpl; repeat split; intros; congruence.
  - intros user armed r s. unfold LumoraDashboard.handleArmedChange; simpl.
    split; [done|]. split.
    + by intros ->.
    + intros e ->. by split.
  - intros user threshold r s. unfold LumoraDashboard.handleThresholdChange; simpl.
    split; [done|]. split.
    + by intros ->.
    + intros e ->. by split.
Qed.

Lemma settings_writes_stop_at_first_failure_witness :
  ControlPanel.handleArm 1700000000000 Examples.updateRefused Examples.idlePanel
  = ControlPanel.caught Examples.refused
      [ControlPanel.SelectState;
       ControlPanel.UpdateState (Some "state-1") ControlPanel.armed 1700000000000
         (Some "user-1")].
Proof.
  apply (proj1 (proj2 (proj2 (proj1 settings_writes_stop_at_first_failure
           1700000000000 Examples.updateRefused ControlPanel.armed "armed"
           Examples.idlePanel))) Examples.refused).
  - reflexivity.
  - reflexivity.
Defined.

(** C4 as stated fails: the read succeeds and the store refuses the
    update, and the panel never attempts the audit insert; and when the
    store refuses the update sent by [handleArmedChange], the local armed
    flag is the old one, not the attempted one, and nothing is returned
    to the caller but a console line. *)
Lemma audit_insert_skipped_when_update_fails :
  existsb ControlPanel.isInsertLog
    (ControlPanel.sent
       (ControlPanel.handleArm 1700000000000 Examples.updateRefused Examples.idlePanel))
  = false ∧
  LumoraDashboard.is_armed
    <$> LumoraDashboard.settings
          (LumoraDashboard.handleArmedChange (Some "user-1") true
             (fail Examples.refused) Examples.loadedDash).1
  = Some false ∧
  (LumoraDashboard.handleArmedChange (Some "user-1") true
     (fail Examples.refused) Examples.loadedDash).2
  = [LumoraDashboard.UpdateArmed true (Some "user-1")].
Proof. repeat split. Qed.

End ArmFacts.

(** * Further properties of the code *)

(** ** The theme across restarts *)
Section ThemeRestart.
Import Theme.

(** The theme a toggle leaves in [localStorage] is the theme the hook
    starts with the next time it mounts on that store, and the toggle
    writes no other key of the store. *)
Theorem toggled_theme_survives_restart (s : ThemeState) :
  isDark (useTheme (localStorage (toggleTheme s))) = isDark (toggleTheme s) ∧
  ∀ k : string, k ≠ themeKey → localStorage (toggleTheme s) !! k = localStorage s !! k.
Proof.
  split.
  - unfold useTheme, mountEffect. cbn [initial localStorage isDark].
    rewrite toggleTheme_saved. by destruct (isDark (toggleTheme s)).
  - intros k Hk. unfold toggleTheme; simpl. by rewrite lookup_insert_ne.
Qed.

Lemma toggled_theme_survives_restart_witness :
  localStorage (toggleTheme (useTheme {[ "lang" := "en" ]})) !! "lang"
  = localStorage (useTheme {[ "lang" := "en" ]}) !! "lang".
Proof.
  apply (proj2 (toggled_theme_survives_restart (useTheme {[ "lang" := "en" ]})) "lang").
  discriminate.
Defined.

(** What the hook makes of the stored value when it mounts: it is dark
    exactly when nothing is stored, the empty string is stored, or "dark"
    is stored; any other stored value, not only "light", gives the light
    theme. *)
Theorem startup_theme_is_dark_iff (store : gmap string string) :
  isDark (useTheme store) = true
  ↔ store !! themeKey = None ∨ store !! themeKey = Some "" ∨ store !! themeKey = Some "dark".
Proof.
  unfold useTheme, mountEffect. cbn [initial localStorage isDark].
  destruct (store !! themeKey) as [saved|] eqn:Hsaved; [|by split; [left|]].
  destruct saved as [|a rest]; cbn [truthy isDark].
  - split; [by right; left|done].
  - rewrite bool_decide_eq_true. split.
    + intros ->. by right; right.
    + intros [H|[H|H]]; congruence.
Qed.

End ThemeRestart.

(** ** Clearing entries of the detection log *)
Section ClearFacts.
Import DetectionFeed FeedOps.
Local Open Scope Z_scope.

Lemma filter_all {A : Type} (P : A → Prop) `{!∀ x, Decision (P x)} (l : list A) :
  (∀ x, x ∈ l → P x) → filter P l = l.
Proof.
  induction l as [|x l IH]; intros Hall; [done|].
  rewrite filter_cons_True by (apply Hall; by left).
  f_equal. apply IH. intros y Hy. apply Hall. by right.
Qed.

(** [clearDetection] removes from the buffer exactly the entries that
    carry the given id and keeps the others; it never makes the buffer
    longer; clearing an id that no entry carries changes nothing at all;
    and clearing the same id again changes nothing more. *)
Theorem clearDetection_removes_exactly_that_id (i : string) (s : Feed) :
  (∀ d : Detection,
      d ∈ detections (clearDetection i s) ↔ d ∈ detections s ∧ id d ≠ i) ∧
  (length (detections (clearDetection i s)) ≤ length (detections s))%nat ∧
  ((∀ d : Detection, d ∈ detections s → id d ≠ i) → clearDetection i s = s) ∧
  clearDetection i (clearDetection i s) = clearDetection i s.
Proof.
  split; [|split; [|split]].
  - intros d. unfold clearDetection; simpl. rewrite list_elem_of_filter. tauto.
  - apply length_filter.
  - intros Habsent. destruct s as [ds al ts un]. unfold clearDetection; simpl in *.
    f_equal. by apply filter_all.
  - unfold clearDetection; simpl. f_equal.
    apply filter_all. intros d Hd. by apply list_elem_of_filter in Hd as [Hne _].
Qed.

Lemma clearDetection_removes_exactly_that_id_witness :
  clearDetection "nobody" (run [Examples.callAt 0 "a" 80; Examples.callAt 10 "b" 60])
  = run [Examples.callAt 0 "a" 80; Examples.callAt 10 "b" 60].
Proof.
  apply (proj1 (proj2 (proj2 (clearDetection_removes_exactly_that_id "nobody"
           (run [Examples.callAt 0 "a" 80; Examples.callAt 10 "b" 60]))))).
  intros d Hd.
  apply elem_of_cons in Hd as [->|Hd]; [discriminate|].
  apply elem_of_cons in Hd as [->|Hd]; [discriminate|].
  by apply elem_of_nil in Hd.
Defined.

Lemma foldl_sweep_alerts_only (fired : list Z) (s : Feed) :
  activeAlerts (foldl (λ acc due, sweep due acc) s fired)
  = foldl (λ al due, filter (λ a, due - timestamp a < 5000) al) (activeAlerts s) fired.
Proof.
  revert s. induction fired as [|due fired IH]; intros s; simpl; [done|].
  by rewrite IH.
Qed.

Lemma recordDetection_alerts_only (c : Call) (s1 s2 : Feed) :
  activeAlerts s1 = activeAlerts s2 → timeouts s1 = timeouts s2 →
  activeAlerts (recordDetection c s1) = activeAlerts (recordDetection c s2) ∧
  timeouts (recordDetection c s1) = timeouts (recordDetection c s2).
Proof.
  intros Hal Hts. unfold recordDetection, addDetection.
  assert (activeAlerts (advance (instant c) s1) = activeAlerts (advance (instant c) s2)) as Ha.
  { unfold advance; simpl. by rewrite !foldl_sweep_alerts_only, Hal, Hts. }
  assert (timeouts (advance (instant c) s1) = timeouts (advance (instant c) s2)) as Ht.
  { unfold advance; simpl. by rewrite Hts. }
  destruct (Qle_bool _ _); cbn [activeAlerts timeouts]; by rewrite Ha, Ht.
Qed.

Lemma runOps_snoc (ops : list FeedOp) (op : FeedOp) :
  runOps (ops ++ [op]) = applyOp (runOps ops) op.
Proof. unfold runOps. by rewrite foldl_snoc. Qed.

(** However [recordDetection] and [clearDetection] calls are interleaved,
    the buffer never holds more than 100 entries, and the active alerts
    and the pending timeouts are those of the [recordDetection] calls
    alone: clearing log entries neither cancels nor prolongs an alert. *)
Theorem clearing_never_touches_alerts (ops : list FeedOp) :
  (length (detections (runOps ops)) ≤ 100)%nat ∧
  activeAlerts (runOps ops) = activeAlerts (run (recorded ops)) ∧
  timeouts (runOps ops) = timeouts (run (recorded ops)).
Proof.
  induction ops as [|op ops (Hlen & Hal & Hts)] using rev_ind.
  - repeat split. simpl. lia.
  - rewrite runOps_snoc. unfold recorded. rewrite omap_app. fold (recorded ops).
    destruct op as [c|i]; simpl.
    + rewrite run_snoc. split.
      * rewrite recordDetection_detections, length_take. lia.
      * by apply recordDetection_alerts_only.
    + rewrite app_nil_r. split; [|done].
      etransitivity; [apply length_filter|done].
Qed.

(** *** The highest confidence *)

Lemma Qmaxb_ge_l (a b : Q) : (a <= Qmaxb a b)%Q.
Proof.
  unfold Qmaxb. destruct (Qle_bool a b) eqn:H.
  - by apply Qle_bool_iff.
  - apply Qle_refl.
Qed.

Lemma Qmaxb_ge_r (a b : Q) : (b <= Qmaxb a b)%Q.
Proof.
  unfold Qmaxb. destruct (Qle_bool a b) eqn:H.
  - apply Qle_refl.
  - apply Qlt_le_weak, Qnot_le_lt. intros Hle.
    apply Qle_bool_iff in Hle. congruence.
Qed.

Lemma mathMax_is_max (first : Q) (rest : list Q) :
  mathMax first rest ∈ first :: rest ∧
  ∀ x, x ∈ first :: rest → (x <= mathMax first rest)%Q.
Proof.
  unfold mathMax. revert first.
  induction rest as [|y rest IH]; intros first; simpl.
  - split; [by left|]. intros x Hx.
    apply list_elem_of_singleton in Hx as ->. apply Qle_refl.
  - destruct (IH (Qmaxb first y)) as [Hin Hub]. split.
    + apply elem_of_cons in Hin as [Heq|Hin].
      * rewrite Heq. unfold Qmaxb.
        destruct (Qle_bool first y); [right; by left | by left].
      * right. by right.
    + intros x Hx. apply elem_of_cons in Hx as [->|Hx].
      * eapply Qle_trans; [apply Qmaxb_ge_l|]. apply Hub. by left.
      * apply elem_of_cons in Hx as [->|Hx].
        -- eapply Qle_trans; [apply Qmaxb_ge_r|]. apply Hub. by left.
        -- apply Hub. by right.
Qed.

(** [hasActiveAlert] is false exactly when there is no active alert, and
    then [highestConfidence] is 0; otherwise [highestConfidence] is the
    confidence of one of the active alerts and no active alert has a
    higher one. *)
Theorem highestConfidence_is_the_maximum (s : Feed) :
  (hasActiveAlert s = false ↔ activeAlerts s = []) ∧
  (activeAlerts s = [] → highestConfidence s = 0%Q) ∧
  (activeAlerts s ≠ [] →
     (∃ a, a ∈ activeAlerts s ∧ highestConfidence s = alert_confidence a) ∧
     (∀ a, a ∈ activeAlerts s → (alert_confidence a <= highestConfidence s)%Q)).
Proof.
  unfold hasActiveAlert, highestConfidence.
  destruct (activeAlerts s) as [|a0 al].
  - split; [|split]; [|done|done]. rewrite bool_decide_eq_false. simpl. split; [done|lia].
  - split; [|split]; [|done|].
    + rewrite bool_decide_eq_false. simpl. split; [lia|done].
    + intros _. cbn [fmap list_fmap].
      destruct (mathMax_is_max (alert_confidence a0) (alert_confidence <$> al)) as [Hin Hub].
      split.
      * change (alert_confidence a0 :: (alert_confidence <$> al))
          with (alert_confidence <$> (a0 :: al)) in Hin.
        apply list_elem_of_fmap in Hin as (a & Heq & Ha). by exists a.
      * intros a Ha. apply Hub.
        change (alert_confidence a0 :: (alert_confidence <$> al))
          with (alert_confidence <$> (a0 :: al)).
        by apply list_elem_of_fmap_2.
Qed.

Lemma highestConfidence_is_the_maximum_witness :
  (alert_confidence (alertOf 0 (Examples.sighting "a" 80))
   <= highestConfidence (run [Examples.callAt 0 "a" 80; Examples.callAt 10 "b" 95]))%Q.
Proof.
  apply (proj2 (proj2 (proj2 (highestConfidence_is_the_maximum
           (run [Examples.callAt 0 "a" 80; Examples.callAt 10 "b" 95])))
           ltac:(discriminate))
           (alertOf 0 (Examples.sighting "a" 80))).
  repeat constructor.
Defined.

End ClearFacts.

(** ** Reordering and deleting cameras *)
Section ReorderFacts.
Import Supabase LumoraDashboard CameraGrid DashboardHandlers.
Local Open Scope Z_scope.

Lemma arrayMove_Permutation {A : Type} (l l' : list A) (from to : Z) :
  arrayMove l from to = Some l' → l' ≡ₚ l.
Proof.
  unfold arrayMove.
  destruct (l !! Z.to_nat (spliceStart (Z.of_nat (length l)) from)) as [item|] eqn:Hitem;
    [|done].
  intros [= <-]. rewrite <- Permutation_middle, take_drop.
  symmetry. by apply delete_Permutation.
Qed.

(** The element the first splice takes out lands at index [to]. *)
Lemma arrayMove_lands {A : Type} (l : list A) (from to : Z) (item : A) :
  l !! Z.to_nat (spliceStart (Z.of_nat (length l)) from) = Some item →
  0 ≤ to < Z.of_nat (length l) →
  ∃ l', arrayMove l from to = Some l' ∧ l' !! Z.to_nat to = Some item.
Proof.
  intros Hitem Hto. unfold arrayMove. rewrite Hitem.
  eexists; split; [done|].
  assert (length (delete (Z.to_nat (spliceStart (Z.of_nat (length l)) from)) l)
          = (length l - 1)%nat) as Hlen by (apply length_delete; eauto).
  rewrite Hlen.
  assert ((to <? 0) = false) as -> by lia.
  unfold spliceStart at 1. assert ((to <? 0) = false) as -> by lia.
  apply list_lookup_middle. rewrite length_take, Hlen. lia.
Qed.

Lemma positionUpdates_positions (now : Z) (cs : list Camera) :
  update_position <$> positionUpdates now cs = Z.of_nat <$> seq 0 (length cs).
Proof.
  apply list_eq. intros i. unfold positionUpdates.
  rewrite !list_lookup_fmap, list_lookup_imap.
  destruct (cs !! i) as [c|] eqn:Hc; simpl.
  - apply lookup_lt_Some in Hc. by rewrite lookup_seq_lt.
  - apply lookup_ge_None in Hc. by rewrite lookup_seq_ge.
Qed.

Lemma positionUpdates_ids (now : Z) (cs : list Camera) :
  update_id <$> positionUpdates now cs = CameraTile.id <$> cs.
Proof.
  apply list_eq. intros i. unfold positionUpdates.
  rewrite !list_lookup_fmap, list_lookup_imap. by destruct (cs !! i).
Qed.

Lemma handleReorderCameras_yields
    (now oldIndex newIndex : Z) (s s' : Dash) (req : option (list PositionUpdate)) :
  handleReorderCameras now oldIndex newIndex s = Some (s', req) →
  cameras s' ≡ₚ cameras s ∧
  (oldIndex = newIndex → s' = s ∧ req = None) ∧
  (oldIndex ≠ newIndex →
     ∃ ups, req = Some ups ∧
       update_id <$> ups = CameraTile.id <$> cameras s' ∧
       update_position <$> ups = Z.of_nat <$> seq 0 (length (cameras s))).
Proof.
  unfold handleReorderCameras. case_bool_decide as Heq.
  - intros [= <- <-]. by repeat split.
  - destruct (arrayMove (cameras s) oldIndex newIndex) as [newCameras|] eqn:Hmove;
      simpl; [|done].
    intros [= <- <-]. simpl.
    pose proof (arrayMove_Permutation _ _ _ _ Hmove) as Hperm.
    split; [done|]. split; [done|]. intros _.
    eexists; split; [done|]. split.
    + apply positionUpdates_ids.
    + rewrite positionUpdates_positions. by rewrite (Permutation_length Hperm).
Qed.

(** The inner splice of [arrayMove] removes an element exactly when the
    array is not empty and [from] is below its length. *)
Lemma arrayMove_removes {A : Type} (l : list A) (from to : Z) :
  l ≠ [] → from < Z.of_nat (length l) → is_Some (arrayMove l from to).
Proof.
  intros Hne Hfrom. unfold arrayMove.
  destruct (lookup_lt_is_Some_2 l (Z.to_nat (spliceStart (Z.of_nat (length l)) from)))
    as [item Hitem].
  - destruct l; [done|]. unfold spliceStart. simpl length in *.
    destruct (from <? 0) eqn:Hneg; lia.
  - rewrite Hitem. eauto.
Qed.

(** On a non-empty camera list and with [oldIndex] below its length
    (negative indices count from the end, as [splice] has it),
    [handleReorderCameras] yields a state for every [newIndex], negative
    ones included.  The camera list of that state is a rearrangement of
    the one before: no camera is lost or duplicated.  No upsert is sent
    exactly when the two indices are equal, and then the state is
    untouched; the upsert sent otherwise names the cameras in their new
    order and numbers them 0, 1, 2, ... in that order. *)
Theorem reorder_rearranges_and_renumbers
    (now oldIndex newIndex : Z) (s : Dash) :
  cameras s ≠ [] →
  oldIndex < Z.of_nat (length (cameras s)) →
  ∃ (s' : Dash) (req : option (list PositionUpdate)),
    handleReorderCameras now oldIndex newIndex s = Some (s', req) ∧
    cameras s' ≡ₚ cameras s ∧
    (oldIndex = newIndex → s' = s ∧ req = None) ∧
    (oldIndex ≠ newIndex →
       ∃ ups, req = Some ups ∧
         update_id <$> ups = CameraTile.id <$> cameras s' ∧
         update_position <$> ups = Z.of_nat <$> seq 0 (length (cameras s))).
Proof.
  intros Hne Hold.
  assert (∃ s' req, handleReorderCameras now oldIndex newIndex s = Some (s', req))
    as (s' & req & Hre).
  { unfold handleReorderCameras. case_bool_decide; [by eexists _, _|].
    destruct (arrayMove_removes (cameras s) oldIndex newIndex Hne Hold) as [l' ->].
    simpl. by eexists _, _. }
  exists s', req. split; [done|]. by apply (handleReorderCameras_yields now).
Qed.

Lemma reorder_rearranges_and_renumbers_witness :
  ∃ (s' : Dash) (req : option (list PositionUpdate)),
    handleReorderCameras 1700000000000 0 (-1) Examples.loadedDash = Some (s', req) ∧
    cameras s' ≡ₚ cameras Examples.loadedDash ∧
    (0 = -1 → s' = Examples.loadedDash ∧ req = None) ∧
    (0 ≠ -1 →
       ∃ ups, req = Some ups ∧
         update_id <$> ups = CameraTile.id <$> cameras s' ∧
         update_position <$> ups
         = Z.of_nat <$> seq 0 (length (cameras Examples.loadedDash))).
Proof.
  apply (reorder_rearranges_and_renumbers 1700000000000 0 (-1) Examples.loadedDash).
  - discriminate.
  - simpl; lia.
Defined.

(** With both indices inside the list, [handleReorderCameras] always
    yields a state, and in it the camera that was at [oldIndex] sits at
    [newIndex]. *)
Theorem reorder_puts_camera_at_new_index
    (now oldIndex newIndex : Z) (s : Dash) :
  0 ≤ oldIndex < Z.of_nat (length (cameras s)) →
  0 ≤ newIndex < Z.of_nat (length (cameras s)) →
  ∃ s' req,
    handleReorderCameras now oldIndex newIndex s = Some (s', req) ∧
    cameras s' !! Z.to_nat newIndex = cameras s !! Z.to_nat oldIndex.
Proof.
  intros Hold Hnew. unfold handleReorderCameras. case_bool_decide as Heq.
  - exists s, None. by rewrite Heq.
  - destruct (lookup_lt_is_Some_2 (cameras s) (Z.to_nat oldIndex)) as [item Hitem]; [lia|].
    assert (spliceStart (Z.of_nat (length (cameras s))) oldIndex = oldIndex) as Hstart.
    { unfold spliceStart. assert ((oldIndex <? 0) = false) as -> by lia. lia. }
    destruct (arrayMove_lands (cameras s) oldIndex newIndex item) as (l' & Hmove & Hat);
      [by rewrite Hstart|done|].
    rewrite Hmove. simpl. eexists _, _. split; [done|]. simpl. by rewrite Hat, Hitem.
Qed.

Lemma reorder_puts_camera_at_new_index_witness :
  ∃ s' req,
    handleReorderCameras 1700000000000 2 0 Examples.loadedDash = Some (s', req) ∧
    cameras s' !! Z.to_nat 0 = cameras Examples.loadedDash !! Z.to_nat 2.
Proof.
  apply (reorder_puts_camera_at_new_index 1700000000000 2 0 Examples.loadedDash).
  - simpl; lia.
  - simpl; lia.
Defined.

(** *** The end of a drag *)

Lemma findIndex_range {A : Type} (p : A → bool) (l : list A) :
  -1 ≤ findIndex p l < Z.of_nat (length l).
Proof.
  induction l as [|x l IH]; simpl; [lia|].
  destruct (p x); [lia|]. destruct (findIndex p l <? 0) eqn:Hneg; lia.
Qed.

Lemma findIndex_found {A : Type} (p : A → bool) (l : list A) :
  0 ≤ findIndex p l →
  ∃ x, l !! Z.to_nat (findIndex p l) = Some x ∧ p x = true.
Proof.
  induction l as [|x l IH]; simpl; [lia|].
  destruct (p x) eqn:Hp; [intros _; by exists x|].
  destruct (findIndex p l <? 0) eqn:Hneg; [lia|]. intros _.
  destruct IH as (y & Hy & Hpy); [lia|]. exists y. split; [|done].
  replace (Z.to_nat (findIndex p l + 1)) with (S (Z.to_nat (findIndex p l))) by lia.
  done.
Qed.

Lemma findIndex_elem {A : Type} (p : A → bool) (l : list A) (x : A) :
  x ∈ l → p x = true → 0 ≤ findIndex p l.
Proof.
  induction l as [|y l IH]; intros Hin Hp; [by apply elem_of_nil in Hin|].
  simpl. destruct (p y) eqn:Hpy; [lia|].
  apply elem_of_cons in Hin as [->|Hin]; [congruence|].
  specialize (IH Hin Hp). destruct (findIndex p l <? 0) eqn:Hneg; lia.
Qed.

Lemma findIndex_missing {A : Type} (p : A → bool) (l : list A) :
  (∀ x, x ∈ l → p x = false) → findIndex p l = -1.
Proof.
  induction l as [|y l IH]; intros Hall; [done|]. simpl.
  rewrite (Hall y) by (by left).
  rewrite IH by (intros x Hx; apply Hall; by right). done.
Qed.

(** Dropping the tile of one camera on the tile of another, both in the
    grid, rearranges the camera list so that the dragged camera (the
    first that carries the dragged id) sits where the camera it was
    dropped on was, and sends the upsert; dropping a tile on nothing or
    on itself changes nothing and sends nothing. *)
Theorem drag_moves_camera_to_drop_target
    (now : Z) (active overId : string) (s : Dash) :
  (active ∈ CameraTile.id <$> cameras s → overId ∈ CameraTile.id <$> cameras s →
   active ≠ overId →
   ∃ s' ups dragged,
     dragEnd now active (Some overId) s = Some (s', Some ups) ∧
     cameras s' ≡ₚ cameras s ∧
     cameras s' !! Z.to_nat (findIndex (hasId overId) (cameras s)) = Some dragged ∧
     CameraTile.id dragged = active) ∧
  dragEnd now active None s = Some (s, None) ∧
  dragEnd now active (Some active) s = Some (s, None).
Proof.
  split; [|split].
  - intros Ha Ho Hne.
    apply list_elem_of_fmap in Ha as (a & Hida & Ha).
    apply list_elem_of_fmap in Ho as (o & Hido & Ho).
    assert (0 ≤ findIndex (hasId active) (cameras s)) as Hold.
    { apply (findIndex_elem _ _ a Ha). unfold hasId. by apply bool_decide_eq_true. }
    assert (0 ≤ findIndex (hasId overId) (cameras s)) as Hnew.
    { apply (findIndex_elem _ _ o Ho). unfold hasId. by apply bool_decide_eq_true. }
    destruct (findIndex_found _ _ Hold) as (dragged & Hdragged & Hpd).
    destruct (findIndex_found _ _ Hnew) as (target & Htarget & Hpt).
    apply bool_decide_eq_true in Hpd, Hpt.
    assert (findIndex (hasId active) (cameras s) ≠ findIndex (hasId overId) (cameras s))
      as Hdiff.
    { intros Heq. rewrite Heq in Hdragged. congruence. }
    pose proof (findIndex_range (hasId active) (cameras s)) as Hr1.
    pose proof (findIndex_range (hasId overId) (cameras s)) as Hr2.
    destruct (reorder_puts_camera_at_new_index now _ _ s
                (conj Hold (proj2 Hr1)) (conj Hnew (proj2 Hr2))) as (s' & req & Hre & Hat).
    destruct (handleReorderCameras_yields _ _ _ _ _ _ Hre) as (Hperm & _ & Hreq).
    destruct (Hreq Hdiff) as (ups & -> & _).
    exists s', ups, dragged. unfold dragEnd, handleDragEnd.
    rewrite bool_decide_true by done. split; [done|]. split; [done|].
    split; [|done]. by rewrite Hat.
  - done.
  - unfold dragEnd, handleDragEnd. by rewrite bool_decide_false by (by intros ?).
Qed.

Lemma drag_moves_camera_to_drop_target_witness :
  ∃ s' ups dragged,
    dragEnd 1700000000000 "cam-3" (Some "cam-1") Examples.loadedDash = Some (s', Some ups) ∧
    cameras s' ≡ₚ cameras Examples.loadedDash ∧
    cameras s' !! Z.to_nat (findIndex (hasId "cam-1") (cameras Examples.loadedDash))
    = Some dragged ∧
    CameraTile.id dragged = "cam-3".
Proof.
  apply (proj1 (drag_moves_camera_to_drop_target 1700000000000 "cam-3" "cam-1"
                  Examples.loadedDash)).
  - right; right; by left.
  - by left.
  - discriminate.
Defined.

(** [handleDragEnd] passes the -1 of a failed [findIndex] on unchecked:
    when no camera of a non-empty list carries the dragged id and the
    drop target is in the list, it is the last camera of the list that
    is moved to the target's place. *)
Theorem drag_of_unknown_id_moves_last_camera
    (now : Z) (active overId : string) (s : Dash) (final : Camera) :
  active ∉ CameraTile.id <$> cameras s →
  overId ∈ CameraTile.id <$> cameras s →
  last (cameras s) = Some final →
  ∃ s' req,
    dragEnd now active (Some overId) s = Some (s', req) ∧
    cameras s' !! Z.to_nat (findIndex (hasId overId) (cameras s)) = Some final.
Proof.
  intros Hmissing Ho Hlast.
  assert (active ≠ overId) as Hne by (intros ->; done).
  apply list_elem_of_fmap in Ho as (o & Hido & Ho).
  assert (0 ≤ findIndex (hasId overId) (cameras s)) as Hnew.
  { apply (findIndex_elem _ _ o Ho). unfold hasId. by apply bool_decide_eq_true. }
  pose proof (findIndex_range (hasId overId) (cameras s)) as Hr2.
  assert (findIndex (hasId active) (cameras s) = -1) as Hold.
  { apply findIndex_missing. intros c Hc. unfold hasId. apply bool_decide_eq_false.
    intros Hid. apply Hmissing. apply list_elem_of_fmap. by exists c. }
  unfold dragEnd, handleDragEnd. rewrite bool_decide_true by done. rewrite Hold.
  unfold handleReorderCameras. rewrite bool_decide_false by lia.
  rewrite last_lookup in Hlast.
  destruct (arrayMove_lands (cameras s) (-1) (findIndex (hasId overId) (cameras s)) final)
    as (l' & Hmove & Hat); [|lia|].
  - rewrite <- Hlast. f_equal. unfold spliceStart. simpl. lia.
  - rewrite Hmove. simpl. by eexists _, _.
Qed.

Lemma drag_of_unknown_id_moves_last_camera_witness :
  ∃ s' req,
    dragEnd 1700000000000 "ghost" (Some "cam-1") Examples.loadedDash = Some (s', req) ∧
    cameras s' !! Z.to_nat (findIndex (hasId "cam-1") (cameras Examples.loadedDash))
    = Some Examples.garage.
Proof.
  apply (drag_of_unknown_id_moves_last_camera 1700000000000 "ghost" "cam-1"
           Examples.loadedDash Examples.garage).
  - intros H. repeat (apply elem_of_cons in H as [H|H]; [discriminate|]).
    by apply elem_of_nil in H.
  - by left.
  - reflexivity.
Defined.

(** *** Deleting a camera *)

(** When the store accepts the delete, the local list loses exactly the
    cameras that carry the id and keeps every other one, and nothing else
    of the dashboard state changes; deleting an id no camera carries
    leaves the list as it is; when the store refuses, the list is
    untouched. *)
Theorem delete_removes_camera_only_on_success
    (cameraId : string) (r : Response unit) (s : Dash) :
  (error r = None →
     (∀ c, c ∈ cameras (handleDeleteCamera cameraId r s)
           ↔ c ∈ cameras s ∧ CameraTile.id c ≠ cameraId) ∧
     (cameraId ∉ CameraTile.id <$> cameras s →
        cameras (handleDeleteCamera cameraId r s) = cameras s) ∧
     settings (handleDeleteCamera cameraId r s) = settings s ∧
     console (handleDeleteCamera cameraId r s) = console s) ∧
  (error r ≠ None → cameras (handleDeleteCamera cameraId r s) = cameras s).
Proof.
  unfold handleDeleteCamera. destruct (error r) as [e|]; split; try done.
  intros _. simpl. split; [|split; [|done]].
  - intros c. rewrite list_elem_of_filter. tauto.
  - intros Habsent. apply filter_all. intros c Hc Hid.
    apply Habsent. apply list_elem_of_fmap. by exists c.
Qed.

Lemma delete_removes_camera_only_on_success_witness :
  cameras (handleDeleteCamera "cam-2" (fail Examples.refused) Examples.loadedDash)
  = cameras Examples.loadedDash.
Proof.
  apply (proj2 (delete_removes_camera_only_on_success "cam-2" (fail Examples.refused)
                  Examples.loadedDash)).
  discriminate.
Defined.

(** *** Loading the cameras *)

(** Whatever the store answers, [loadCameras] ends with the loading flag
    cleared and the settings untouched.  When the ordered query answers,
    its rows become the list and no second query is sent; when both
    queries fail the list is left as it was, and a warning and an error
    go to the console. *)
Theorem load_always_finishes
    (supabase : CameraQuery → Response (list Camera)) (user : option string) (s : Dash) :
  loading (loadCameras supabase user s) = false ∧
  settings (loadCameras supabase user s) = settings s ∧
  (error (supabase (SelectOrdered user)) = None →
     cameras (loadCameras supabase user s) = orEmpty (data (supabase (SelectOrdered user))) ∧
     loadCamerasQueries supabase user = [SelectOrdered user] ∧
     console (loadCameras supabase user s) = console s) ∧
  (∀ e e', error (supabase (SelectOrdered user)) = Some e →
           error (supabase (SelectUnordered user)) = Some e' →
     cameras (loadCameras supabase user s) = cameras s ∧
     console (loadCameras supabase user s)
     = console s
       ++ [Warn ("Failed to load sorted cameras, falling back to unsorted: " +:+ message e);
           Error ("Error loading cameras: " +:+ message e')]).
Proof.
  unfold loadCameras, loadCamerasQueries.
  destruct (error (supabase (SelectOrdered user))) as [e|];
    [destruct (error (supabase (SelectUnordered user))) as [e'|]|]; simpl;
    repeat split; try done.
  simplify_eq. by rewrite <- app_assoc.
Qed.

Lemma load_always_finishes_witness :
  cameras (loadCameras (λ _, fail Examples.refused) (Some "user-1") Examples.loadedDash)
  = cameras Examples.loadedDash.
Proof.
  apply (proj2 (proj2 (proj2 (load_always_finishes (λ _, fail Examples.refused)
           (Some "user-1") Examples.loadedDash))) Examples.refused Examples.refused).
  - reflexivity.
  - reflexivity.
Defined.

End ReorderFacts.

(** ** Settings: loading and toggling *)
Section SettingsFacts.
Import Supabase LumoraDashboard DashboardHandlers.

(** [loadSettings], as the dashboard's mount effect calls it, creates a
    settings row only when the select returned none and the user has an
    id, and the row it asks for is disarmed, with threshold 70 and
    [dark_mode] true: the theme of the first render, not the stored one,
    so that with "light" stored and shown the row still says dark.  A
    select error with code PGRST116 is handled exactly as no error.  Any
    other select error, or a refused insert, leaves the local settings as
    they were; a returned row becomes the local settings without any
    write. *)
Theorem loadSettings_creates_defaults_only_when_missing
    (store : gmap string string) (user : option string) (answer : SelectAnswer)
    (inserted : Response SystemSettings) (s : Dash) :
  (∀ req, req ∈ (loadSettingsOnMount store user answer inserted s).2 →
          isInsertSettings req = true →
          selected answer = None ∧
          ∃ uid, userId user = Some uid ∧ req = InsertSettings uid false 70 true) ∧
  (∀ uid, store !! Theme.themeKey = Some "light" →
          fatal (selectError answer) = None → selected answer = None →
          userId user = Some uid →
          Theme.isDark (Theme.useTheme store) = false ∧
          (loadSettingsOnMount store user answer inserted s).2
          = [SelectSettings user; InsertSettings uid false 70 true]) ∧
  (∀ e, selectError answer = Some e → code e = "PGRST116" →
        loadSettingsOnMount store user answer inserted s
        = loadSettingsOnMount store user
            {| selected := selected answer; selectError := None |} inserted s) ∧
  (∀ e, selectError answer = Some e → code e ≠ "PGRST116" →
        settings (loadSettingsOnMount store user answer inserted s).1 = settings s ∧
        (loadSettingsOnMount store user answer inserted s).2 = [SelectSettings user]) ∧
  (∀ row, fatal (selectError answer) = None → selected answer = Some row →
        settings (loadSettingsOnMount store user answer inserted s).1 = Some row ∧
        (loadSettingsOnMount store user answer inserted s).2 = [SelectSettings user]) ∧
  (existsb isInsertSettings (loadSettingsOnMount store user answer inserted s).2 = true →
   error inserted ≠ None →
   settings (loadSettingsOnMount store user answer inserted s).1 = settings s).
Proof.
  unfold loadSettingsOnMount. cbn [Theme.initial Theme.isDark].
  split; [|split; [|split; [|split; [|split]]]].
  - intros req Hin Hins. unfold loadSettings in Hin.
    destruct (fatal (selectError answer)) as [e|];
      [|destruct (selected answer) as [row|]; [|destruct (userId user) as [uid|]]];
      simpl in Hin;
      repeat (apply elem_of_cons in Hin as [->|Hin]; [try done|]);
      try (by apply elem_of_nil in Hin).
    split; [done|]. by exists uid.
  - intros uid Hlight Hfatal Hrow Huid. split.
    + unfold Theme.useTheme, Theme.mountEffect. cbn [Theme.initial Theme.localStorage].
      by rewrite Hlight.
    + unfold loadSettings. by rewrite Hfatal, Hrow, Huid.
  - intros e He Hcode. unfold loadSettings, fatal. rewrite He. simpl.
    by rewrite bool_decide_false by (by intros ?).
  - intros e He Hcode. unfold loadSettings, fatal. rewrite He.
    by rewrite bool_decide_true.
  - intros row Hfatal Hrow. unfold loadSettings. rewrite Hfatal, Hrow.
    by destruct (userId user).
  - unfold loadSettings.
    destruct (fatal (selectError answer)) as [e|];
      [|destruct (selected answer) as [row|]; [|destruct (userId user) as [uid|]]];
      simpl; try done.
    intros _ Herr. by destruct (error inserted).
Qed.

Lemma loadSettings_creates_defaults_only_when_missing_witness :
  Theme.isDark (Theme.useTheme {[ Theme.themeKey := "light" ]}) = false ∧
  (loadSettingsOnMount {[ Theme.themeKey := "light" ]} (Some "user-1")
     {| selected := None; selectError := None |}
     (fail Examples.refused) Examples.loadedDash).2
  = [SelectSettings (Some "user-1"); InsertSettings "user-1" false 70 true].
Proof.
  apply (proj1 (proj2 (loadSettings_creates_defaults_only_when_missing
           {[ Theme.themeKey := "light" ]} (Some "user-1")
           {| selected := None; selectError := None |}
           (fail Examples.refused) Examples.loadedDash)) "user-1").
  - reflexivity.
  - reflexivity.
  - reflexivity.
  - reflexivity.
Defined.



End SettingsFacts.

(** ** The image upload page *)
Section UploadFacts.
Import ObjectDetection.

(** An upload starts by clearing the result and the error.  When it
    runs with no other upload in between, the page afterwards is not
    loading and never shows a result together with an error: it shows an
    error exactly when the request failed (network error, non-success
    status or a body that does not parse), and a result exactly when the
    response was successful with that result as its body, so the result
    of an earlier upload does not survive a failed one; the preview is
    not touched.  Nothing keeps two uploads apart, though: when a second
    upload starts before the first has settled and one of them succeeds
    while the other fails, the page ends up showing the result and the
    error together, in whichever order they settle. *)
Theorem detectObjects_result_or_error (p : Page) :
  (result (detectObjectsStart p) = None ∧ error (detectObjectsStart p) = None) ∧
  (∀ r : FetchResult,
      loading (detectObjects r p) = false ∧
      preview (detectObjects r p) = preview p ∧
      ¬ (is_Some (result (detectObjects r p)) ∧ is_Some (error (detectObjects r p))) ∧
      error (detectObjects r p) = failure r ∧
      (∀ d, result (detectObjects r p) = Some d ↔ r = HttpResponse true (Json (Some d)))) ∧
  (∀ (d : DetectionResult) (r : FetchResult) (msg : string),
      failure r = Some msg →
      let succeeded := HttpResponse true (Json (Some d)) in
      let overlapping := detectObjectsStart (detectObjectsStart p) in
      (result (detectObjectsSettled r (detectObjectsSettled succeeded overlapping)) = Some d ∧
       error (detectObjectsSettled r (detectObjectsSettled succeeded overlapping)) = Some msg) ∧
      (result (detectObjectsSettled succeeded (detectObjectsSettled r overlapping)) = Some d ∧
       error (detectObjectsSettled succeeded (detectObjectsSettled r overlapping)) = Some msg)).
Proof.
  split; [done|]. split.
  - intros r. destruct r as [reason|[] [[d|]|reason]]; simpl;
      (split; [done|]); (split; [done|]);
      (split; [by intros [[? ?] [? ?]]|]); (split; [done|]);
      intros d'; split; intros H; by simplify_eq.
  - intros d r msg Hfail succeeded overlapping.
    destruct r as [reason|[] [[d'|]|reason]]; simpl in *; by simplify_eq.
Qed.

Lemma detectObjects_result_or_error_witness :
  result (detectObjectsSettled (HttpResponse false (Malformed "Internal Server Error"))
            (detectObjectsSettled
               (HttpResponse true (Json (Some {| detections := []; image := "AAAA" |})))
               (detectObjectsStart (detectObjectsStart
                  {| preview := None; result := None; loading := false; error := None |}))))
  = Some {| detections := []; image := "AAAA" |} ∧
  error (detectObjectsSettled (HttpResponse false (Malformed "Internal Server Error"))
           (detectObjectsSettled
              (HttpResponse true (Json (Some {| detections := []; image := "AAAA" |})))
              (detectObjectsStart (detectObjectsStart
                 {| preview := None; result := None; loading := false; error := None |}))))
  = Some "Failed to process image".
Proof.
  apply (proj1 (proj2 (proj2 (detectObjects_result_or_error
           {| preview := None; result := None; loading := false; error := None |}))
           {| detections := []; image := "AAAA" |}
           (HttpResponse false (Malformed "Internal Server Error"))
           "Failed to process image" eq_refl)).
Defined.

End UploadFacts.

(** ** The life of a tile *)
Section TileLifeFacts.
Import Async CameraTile TileLife.

Lemma run_snoc_event (c : Camera) (evs : list Event) (ev : Event) :
  run c (evs ++ [ev]) = step (run c evs) ev.
Proof. unfold run. by rewrite foldl_snoc. Qed.

Lemma step_keeps_polling_sound (l : Live) (ev : Event) :
  (polling (tile l) = true → mounted (tile l) = true ∧ isStreaming (tile l) = true) →
  polling (tile (step l ev)) = true →
  mounted (tile (step l ev)) = true ∧ isStreaming (tile (step l ev)) = true.
Proof.
  intros Hinv. destruct l as [t pending flying].
  assert (∀ t' : Tile,
    polling t' = polling t → mounted t' = mounted t → isStreaming t' = isStreaming t →
    polling t' = true → mounted t' = true ∧ isStreaming t' = true) as Hsame.
  { intros t' Hp Hm Hs Hp'. rewrite Hm, Hs. apply Hinv. simpl. congruence. }
  destruct ev as [c|r|hc rs hb|r|]; simpl in *.
  - apply Hsame; unfold receiveProps; destruct (mounted t) eqn:Hm; simpl; congruence.
  - destruct pending as [|n]; simpl; [done|].
    destruct r as [[]|reason]; simpl.
    + destruct (mounted t) eqn:Hm; simpl; [by intros _; split|].
      intros Hp. destruct (Hinv Hp) as [Hm' _]. congruence.
    + apply Hsame; unfold setError; destruct (mounted t) eqn:Hm; simpl; congruence.
  - by destruct (tick hc rs hb t).
  - destruct flying as [|n]; simpl; [done|].
    destruct r as [reason|[] [ds|reason]]; simpl; try done.
    apply Hsame; unfold setLocalDetections; destruct (mounted t) eqn:Hm; simpl; congruence.
  - done.
Qed.

Lemma step_keeps_polling (l : Live) (ev : Event) :
  isUnmount ev = false →
  polling (tile l) = true ∧ mounted (tile l) = true →
  polling (tile (step l ev)) = true ∧ mounted (tile (step l ev)) = true.
Proof.
  intros Hev [Hp Hm]. destruct l as [t pending flying].
  destruct ev as [c|r|hc rs hb|r|]; simpl in *; try done.
  - unfold receiveProps. by rewrite Hm.
  - destruct pending as [|n]; simpl; [done|].
    destruct r as [[]|reason]; simpl.
    + by rewrite Hm.
    + unfold setError. by rewrite Hm.
  - by destruct (tick hc rs hb t).
  - destruct flying as [|n]; simpl; [done|].
    destruct r as [reason|[] [ds|reason]]; simpl; try done.
    unfold setLocalDetections. by rewrite Hm.
Qed.

(** Through any sequence of props changes, stream and detector answers,
    interval ticks and an unmount, a tile polls only while it is mounted
    and streaming, and it posts a frame only on a tick that finds it
    polling with the video ready ([readyState] 4).  Once a mounted tile
    polls, nothing but unmounting stops it: in particular it goes on
    polling after its camera has been deactivated or its stream
    replaced. *)
Theorem tile_polls_until_unmounted :
  (∀ (c : Camera) (evs : list Event),
      polling (tile (run c evs)) = true →
      mounted (tile (run c evs)) = true ∧ isStreaming (tile (run c evs)) = true) ∧
  (∀ (l : Live) (hasContext : bool) (readyState : Z) (hasBlob : bool),
      inFlight (step l (Tick hasContext readyState hasBlob)) ≠ inFlight l →
      polling (tile l) = true ∧ readyState = 4%Z) ∧
  (∀ (l : Live) (evs : list Event),
      polling (tile l) = true → mounted (tile l) = true →
      Forall (λ ev, isUnmount ev = false) evs →
      polling (tile (foldl step l evs)) = true).
Proof.
  split; [|split].
  - intros c evs. induction evs as [|ev evs IH] using rev_ind; [done|].
    rewrite run_snoc_event. by apply step_keeps_polling_sound.
  - intros l hc rs hb. simpl. unfold tick.
    destruct (polling (tile l)); simpl; [|done].
    destruct (mounted (tile l)); simpl; [|done].
    destruct hc; simpl; [|done].
    case_bool_decide; simpl; [|done]. by destruct hb.
  - intros l evs Hp Hm Hevs. revert l Hp Hm.
    induction Hevs as [|ev evs Hev _ IH]; intros l Hp Hm; simpl; [done|].
    destruct (step_keeps_polling l ev Hev (conj Hp Hm)). by apply IH.
Qed.

Lemma tile_polls_until_unmounted_witness :
  polling (tile (foldl step
                   {| tile := Examples.streamingTile; pendingStreams := 0; inFlight := 0 |}
                   [Tick true 4 true;
                    Props (withActive false Examples.frontDoor);
                    FetchSettled Examples.found;
                    Tick true 4 true])) = true.
Proof.
  apply (proj2 (proj2 tile_polls_until_unmounted)
           {| tile := Examples.streamingTile; pendingStreams := 0; inFlight := 0 |}).
  - reflexivity.
  - reflexivity.
  - repeat constructor.
Defined.

(** A tile whose camera never is an active webcam, at its first render
    or in any later props, never calls for a stream, never streams,
    never polls and never posts a frame, and its overlay stays empty:
    cameras of the other source types are shown but not analysed. *)
Theorem only_active_webcams_are_analysed (c : Camera) (evs : list Event) :
  neverWebcam c evs →
  pendingStreams (run c evs) = 0 ∧
  isStreaming (tile (run c evs)) = false ∧
  polling (tile (run c evs)) = false ∧
  inFlight (run c evs) = 0 ∧
  localDetections (tile (run c evs)) = [].
Proof.
  intros [Hc Hevs]. induction evs as [|ev evs IH] using rev_ind.
  - unfold run, start; simpl. by rewrite Hc.
  - apply Forall_app in Hevs as [Hevs Hev].
    inversion Hev as [|? ? Hev' _]; subst.
    destruct (IH Hevs) as (Hpend & Hstream & Hpoll & Hfly & Hov).
    rewrite run_snoc_event. destruct (run c evs) as [t pending flying].
    simpl in *. subst pending flying.
    destruct ev as [c'|r|hc rs hb|r|]; simpl.
    + unfold restartsWebcam, receiveProps. rewrite Hev'.
      rewrite andb_false_r. by destruct (mounted t).
    + done.
    + unfold tick. by rewrite Hpoll.
    + done.
    + done.
Qed.

Lemma only_active_webcams_are_analysed_witness :
  polling (tile (run Examples.garage
                   [StreamSettled (Fulfilled ()); Tick true 4 true;
                    Props (withActive false Examples.garage); Tick true 4 true])) = false.
Proof.
  apply (only_active_webcams_are_analysed Examples.garage
           [StreamSettled (Fulfilled ()); Tick true 4 true;
            Props (withActive false Examples.garage); Tick true 4 true]).
  split; [reflexivity|]. repeat constructor.
Defined.

End TileLifeFacts.

(** ** After the unmount *)
Section TileCaptureFacts.
Import Async CameraTile TileCapture.

Lemma capture_snoc (c : Camera) (evs : list Event) (ev : Event) :
  run c (evs ++ [ev]) = step (run c evs) ev.
Proof. unfold run. by rewrite foldl_snoc. Qed.

Lemma step_after_unmount (l : Live) (ev : Event) :
  mounted (tile l) = false → polling (tile l) = false →
  mounted (tile (step l ev)) = false ∧
  polling (tile (step l ev)) = false ∧
  localDetections (tile (step l ev)) = localDetections (tile l) ∧
  error (tile (step l ev)) = error (tile l) ∧
  isStreaming (tile (step l ev)) = isStreaming (tile l) ∧
  pendingBlobs (step l ev) ≤ pendingBlobs l ∧
  inFlight (step l ev) + pendingBlobs (step l ev) ≤ inFlight l + pendingBlobs l.
Proof.
  intros Hm Hp. destruct l as [t streams blobs flying].
  destruct ev as [c|r|hc rs|hb|r|]; simpl in *.
  - unfold receiveProps. by rewrite Hm.
  - destruct streams as [|n]; simpl; [done|].
    destruct r as [[]|reason]; simpl.
    + by rewrite Hm.
    + unfold setError. by rewrite Hm.
  - by rewrite Hp.
  - destruct blobs as [|n]; simpl; [done|].
    repeat split; try done; try lia. destruct hb; lia.
  - destruct flying as [|n]; simpl; [done|].
    destruct r as [reason|[] [ds|reason]]; simpl; repeat split; try done; try lia;
      unfold setLocalDetections; by rewrite Hm.
  - done.
Qed.

(** Once a tile has been unmounted, whatever happens afterwards (late
    stream or detector answers, stray ticks or props), its overlay, its
    error and its streaming flag stay what they were at the unmount, it
    does not poll and it starts no new capture.  The blob callback does
    not check that the tile is still there, though: a capture that was
    under way at the unmount still posts its frame, and these are the
    only frames posted afterwards. *)
Theorem unmounted_tile_only_finishes_captures (c : Camera) (before after : list Event) :
  let atUnmount := run c (before ++ [Unmount]) in
  let later := run c (before ++ Unmount :: after) in
  (mounted (tile later) = false ∧
   polling (tile later) = false ∧
   localDetections (tile later) = localDetections (tile atUnmount) ∧
   error (tile later) = error (tile atUnmount) ∧
   isStreaming (tile later) = isStreaming (tile atUnmount) ∧
   pendingBlobs later ≤ pendingBlobs atUnmount ∧
   inFlight later + pendingBlobs later ≤ inFlight atUnmount + pendingBlobs atUnmount) ∧
  (pendingBlobs atUnmount ≠ 0 →
   inFlight (step atUnmount (BlobReady true)) = S (inFlight atUnmount)).
Proof.
  intros atUnmount later. split.
  - subst later.
    replace (before ++ Unmount :: after) with ((before ++ [Unmount]) ++ after)
      by (by rewrite <- app_assoc).
    induction after as [|ev after IH] using rev_ind.
    + rewrite app_nil_r. fold atUnmount. subst atUnmount.
      rewrite capture_snoc. simpl. repeat split; done.
    + rewrite app_assoc, capture_snoc.
      destruct IH as (Hm & Hp & Hov & Herr & Hstr & Hblobs & Hposts).
      destruct (step_after_unmount (run c ((before ++ [Unmount]) ++ after)) ev Hm Hp)
        as (Hm' & Hp' & Hov' & Herr' & Hstr' & Hblobs' & Hposts').
      repeat split; try done; try congruence; lia.
  - intros Hpending. simpl. by destruct (pendingBlobs atUnmount).
Qed.

Lemma unmounted_tile_only_finishes_captures_witness :
  inFlight (step (run Examples.frontDoor
                    ([StreamSettled (Fulfilled ()); Tick true 4] ++ [Unmount]))
              (BlobReady true))
  = S (inFlight (run Examples.frontDoor
                   ([StreamSettled (Fulfilled ()); Tick true 4] ++ [Unmount]))).
Proof.
  apply (proj2 (unmounted_tile_only_finishes_captures Examples.frontDoor
                  [StreamSettled (Fulfilled ()); Tick true 4] [])).
  discriminate.
Defined.

End TileCaptureFacts.

(** ** Submitting the add-camera form *)
Section ModalFacts.
Import AddCameraModal.

Variable trim : string → string.

Lemma truthy_nonempty (s : string) : Theme.truthy s = true ↔ s ≠ "".
Proof. by destruct s. Qed.

(** A submit calls [onAdd] exactly when a source is selected and the
    name is not blank after trimming; it then passes the form as typed
    (the name untrimmed) with the selected source, resets the modal to
    the source step with an empty form and closes it.  Otherwise it
    changes nothing and the modal stays open.  Two submits in a row never
    add two cameras: right after any submit, a second one adds
    nothing. *)
Theorem submit_adds_at_most_once (m : Modal) :
  (is_Some (added (handleSubmit trim m))
     ↔ is_Some (selectedSource m) ∧ trim (name (formData m)) ≠ "") ∧
  (∀ cam, added (handleSubmit trim m) = Some cam →
     selectedSource m = Some (new_source_type cam) ∧
     new_form cam = formData m ∧
     closed (handleSubmit trim m) = true ∧
     step (modal (handleSubmit trim m)) = source ∧
     selectedSource (modal (handleSubmit trim m)) = None ∧
     formData (modal (handleSubmit trim m)) = emptyForm) ∧
  (added (handleSubmit trim m) = None →
     modal (handleSubmit trim m) = m ∧ closed (handleSubmit trim m) = false) ∧
  added (handleSubmit trim (modal (handleSubmit trim m))) = None.
Proof.
  unfold handleSubmit.
  destruct (selectedSource m) as [src|] eqn:Hsrc.
  - destruct (Theme.truthy (trim (name (formData m)))) eqn:Hname; simpl.
    + apply truthy_nonempty in Hname.
      split; [|split; [|split; [done|done]]].
      * split; [intros _; by split|by intros _].
      * by intros cam [= <-].
    + assert (trim (name (formData m)) = "") as Hblank.
      { destruct (trim (name (formData m))); [done|discriminate]. }
      rewrite Hsrc, Hname. simpl.
      split; [|split; [done|split; [done|done]]].
      split; [by intros [? ?]|by intros [_ ?]].
  - simpl. rewrite Hsrc. simpl.
    split; [|split; [done|split; [done|done]]].
    split; [by intros [? ?]|by intros [[? ?] _]].
Qed.

End ModalFacts.

Lemma submit_adds_at_most_once_witness :
  AddCameraModal.formData
    (AddCameraModal.modal
       (AddCameraModal.handleSubmit (λ s, s)
          (AddCameraModal.setName " Porch "
             (AddCameraModal.handleSelectSource AddCameraModal.rtsp
                AddCameraModal.initial))))
  = AddCameraModal.emptyForm.
Proof.
  apply (proj1 (proj2 (submit_adds_at_most_once (λ s, s)
           (AddCameraModal.setName " Porch "
              (AddCameraModal.handleSelectSource AddCameraModal.rtsp
                 AddCameraModal.initial))))
           {| AddCameraModal.new_source_type := AddCameraModal.rtsp;
              AddCameraModal.new_form :=
                {| AddCameraModal.name := " Porch "; AddCameraModal.stream_url := "";
                   AddCameraModal.username := ""; AddCameraModal.password := "" |} |}).
  reflexivity.
Defined.
